(** * Prometheus MCP server: the adapter layer of [prometheus_mcp_server/server.py]

    A shallow embedding of the request gateway ([get_prometheus_auth],
    [make_prometheus_request]), the metrics name cache ([get_cached_metrics])
    and the tool handlers ([health_check], [execute_query],
    [execute_range_query], [list_metrics], [search_metrics],
    [get_metric_metadata]), followed by the properties of the specification
    that are settled on them.  The embedding also covers [get_targets],
    [suggest_semconv], the loading of the configuration from the environment
    and, from [main.py], [setup_environment] and [run_server]; further
    properties of the code close the file.

    Conventions of the embedding.
    - A Python [str] is a [string] (its UTF-8 bytes).  [lower] folds the ASCII
      letters only, and the length or a slice of a [str] counts bytes; both
      agree with Python on ASCII text.
    - A decoded JSON document is a [json]; Python's [None] is [JNull] and a
      [dict] keeps its keys in insertion order.  Numbers are integers: the
      handlers never inspect a numeric payload.
    - [time.time()] is a rational number of seconds.
    - Calls to [logger] are left out: they return nothing and change nothing
      that the handlers read.  An argument of a logging call that can raise
      ([len(data)] in [get_cached_metrics], [len(metadata)] in
      [get_metric_metadata]) is kept.
    - The backend is a function from requests to replies, the same during
      one call of a handler; between two calls the clock and the backend may
      change (see [later]).
    - Exceptions are values of [exn]; the text of a message is kept in pieces
      (see [fragment]) so that an interpolated value stays visible. *)

From Stdlib Require Import ZArith QArith String Ascii List Bool Lia.
From stdpp Require Import base gmap strings pretty.
Import ListNotations.

Local Open Scope string_scope.
Local Open Scope Z_scope.

(** ** Python strings *)

Module Str.

(** [c.lower()] on one ASCII character. *)
Definition lower_ascii (c : ascii) : ascii :=
  let n := nat_of_ascii c in
  if (65 <=? n)%nat && (n <=? 90)%nat then ascii_of_nat (n + 32) else c.

(** [s.lower()] *)
Fixpoint lower (s : string) : string :=
  match s with
  | EmptyString => EmptyString
  | String c rest => String (lower_ascii c) (lower rest)
  end.

(** [s.startswith(p)] *)
Fixpoint starts_with (p s : string) : bool :=
  match p, s with
  | EmptyString, _ => true
  | String _ _, EmptyString => false
  | String a p', String b s' => Ascii.eqb a b && starts_with p' s'
  end.

(** [needle in hay] on two strings: [needle] occurs as a substring. *)
Fixpoint contains (needle hay : string) : bool :=
  starts_with needle hay ||
  match hay with
  | EmptyString => false
  | String _ rest => contains needle rest
  end.

(** [s.rstrip(c)] for a single character [c]. *)
Fixpoint rstrip (c : ascii) (s : string) : string :=
  match s with
  | EmptyString => EmptyString
  | String a rest =>
      match rstrip c rest with
      | EmptyString => if Ascii.eqb a c then EmptyString else String a EmptyString
      | kept => String a kept
      end
  end.

(** [bool(s)]: a string is true when it is not empty. *)
Definition truthy (s : string) : bool :=
  match s with EmptyString => false | String _ _ => true end.

(** The one-character strings of [s], as iteration over a [str] yields. *)
Fixpoint chars (s : string) : list string :=
  match s with
  | EmptyString => []
  | String c rest => String c EmptyString :: chars rest
  end.

(** ['sep'.join(parts)] *)
Fixpoint join (sep : string) (parts : list string) : string :=
  match parts with
  | [] => ""
  | [p] => p
  | p :: rest => p ++ sep ++ join sep rest
  end.

(** [urllib.parse.quote_plus]: letters, digits and [_.-~] are kept, a space
    becomes [+], every other byte becomes [%XX]. *)
Definition always_safe (c : ascii) : bool :=
  let n := nat_of_ascii c in
  ((65 <=? n) && (n <=? 90) || (97 <=? n) && (n <=? 122) ||
   (48 <=? n) && (n <=? 57) ||
   (n =? 95) || (n =? 46) || (n =? 45) || (n =? 126))%nat.

Definition hex_digit (n : nat) : ascii :=
  if (n <? 10)%nat then ascii_of_nat (48 + n) else ascii_of_nat (55 + n).

Definition percent (c : ascii) : string :=
  let n := nat_of_ascii c in
  String "%" (String (hex_digit (n / 16)) (String (hex_digit (n mod 16)) EmptyString)).

Fixpoint quote_plus (s : string) : string :=
  match s with
  | EmptyString => EmptyString
  | String c rest =>
      (if always_safe c then String c EmptyString
       else if Ascii.eqb c " " then "+"
       else percent c) ++ quote_plus rest
  end.

(** [urllib.parse.urlencode] of a [dict] of strings. *)
Definition urlencode (params : list (string * string)) : string :=
  join "&" (map (fun kv => quote_plus (fst kv) ++ "=" ++ quote_plus (snd kv)) params).

End Str.

(** ** Python sequences *)

(** An index of a slice brought into [0 .. len], a negative one counted from
    the end, as [list.__getitem__] does with a slice of step 1. *)
Definition clamp_index (len i : Z) : Z :=
  if i <? 0 then Z.max 0 (i + len) else Z.min i len.

(** [l[start:stop]] *)
Definition slice {A : Type} (l : list A) (start stop : Z) : list A :=
  let n := Z.of_nat (length l) in
  let lo := clamp_index n start in
  let hi := clamp_index n stop in
  firstn (Z.to_nat (hi - lo)) (skipn (Z.to_nat lo) l).

(** ** Decoded JSON *)

#[local] Set Warnings "-register-all".

Inductive json : Type :=
| JNull
| JBool (b : bool)
| JNum (n : Z)
| JStr (s : string)
| JArr (items : list json)
| JObj (fields : list (string * json)).

(** [d.get(k)] on the fields of a [dict]. *)
Fixpoint lookup_field {A : Type} (k : string) (fields : list (string * A)) : option A :=
  match fields with
  | [] => None
  | (k', v) :: rest => if String.eqb k k' then Some v else lookup_field k rest
  end.

(** [isinstance(v, dict)] *)
Definition is_dict (v : json) : bool :=
  match v with JObj _ => true | _ => false end.

(** [v is not None] *)
Definition is_not_none (v : json) : bool :=
  match v with JNull => false | _ => true end.

(** [v == s] for a string literal [s]. *)
Definition eq_str (v : json) (s : string) : bool :=
  match v with JStr s' => String.eqb s' s | _ => false end.

(** ** Exceptions *)

(** A piece of an f-string: literal text, or [str(v)] of an interpolated
    value. *)
Inductive fragment : Type :=
| Text (s : string)
| Fmt (v : json).

Inductive exn : Type :=
| ValueError (msg : list fragment)
| HTTPError (status_code : Z)      (* [raise_for_status] on a 4xx or 5xx reply *)
| RequestException                 (* [requests.get] did not obtain a reply *)
| InvalidJSON                      (* [response.json()] could not decode the body *)
| KeyError (key : string)
| TypeError
| AttributeError.

(** The text of a message all of whose interpolated values are strings
    ([str(s)] is [s]); how [str] prints another value is not modelled. *)
Fixpoint message_text (msg : list fragment) : option string :=
  match msg with
  | [] => Some ""
  | Text s :: rest => option_map (fun r => s ++ r) (message_text rest)
  | Fmt (JStr s) :: rest => option_map (fun r => s ++ r) (message_text rest)
  | Fmt _ :: _ => None
  end.

Inductive outcome (A : Type) : Type :=
| Return (a : A)
| Raise (e : exn).
Arguments Return {A} a.
Arguments Raise {A} e.

Definition is_return {A : Type} (o : outcome A) : bool :=
  match o with Return _ => true | Raise _ => false end.

(** ** Python operators on decoded JSON *)

(** [v[k]] for a string key. *)
Definition getitem (v : json) (k : string) : outcome json :=
  match v with
  | JObj fields =>
      match lookup_field k fields with
      | Some x => Return x
      | None => Raise (KeyError k)
      end
  | _ => Raise TypeError
  end.

(** [k in v] for a string [k]: a key of a [dict], an element of a [list], a
    substring of a [str]; any other value is not iterable. *)
Definition contains_str (k : string) (v : json) : outcome bool :=
  match v with
  | JObj fields => Return (match lookup_field k fields with Some _ => true | None => false end)
  | JArr items => Return (existsb (fun x => eq_str x k) items)
  | JStr s => Return (Str.contains k s)
  | _ => Raise TypeError
  end.

(** [len(v)] *)
Definition len (v : json) : outcome Z :=
  match v with
  | JArr items => Return (Z.of_nat (length items))
  | JObj fields => Return (Z.of_nat (length fields))
  | JStr s => Return (Z.of_nat (String.length s))
  | _ => Raise TypeError
  end.

(** The elements that [for m in v] visits. *)
Definition iterate (v : json) : outcome (list json) :=
  match v with
  | JArr items => Return items
  | JObj fields => Return (map (fun kv => JStr (fst kv)) fields)
  | JStr s => Return (map JStr (Str.chars s))
  | _ => Raise TypeError
  end.

(** [v[start:stop]]: a list or a string can be sliced; for the other
    values the call fails ([TypeError] here; for a [dict] the class of the
    exception depends on the version of the interpreter). *)
Definition getslice (v : json) (start stop : Z) : outcome json :=
  match v with
  | JArr items => Return (JArr (slice items start stop))
  | JStr s => Return (JStr (string_of_list_ascii (slice (list_ascii_of_string s) start stop)))
  | _ => Raise TypeError
  end.

(** [[m for m in items if term in m.lower()]]: an element that is not a
    string has no [lower]. *)
Fixpoint select (term : string) (items : list json) : outcome (list json) :=
  match items with
  | [] => Return []
  | m :: rest =>
      match m with
      | JStr s =>
          match select term rest with
          | Return kept => Return (if Str.contains term (Str.lower s) then m :: kept else kept)
          | Raise e => Raise e
          end
      | _ => Raise AttributeError
      end
  end.

(** ** Configuration *)

Record MCPServerConfig : Type := {
  mcp_server_transport : string;
  mcp_bind_host : string;
  mcp_bind_port : Z
}.

Record PrometheusConfig : Type := {
  url : string;
  url_ssl_verify : bool;
  disable_prometheus_links : bool;
  username : option string;
  password : option string;
  token : option string;
  org_id : option string;
  mcp_server_config : option MCPServerConfig;
  custom_headers : option (gmap string string)
}.

(** [bool(x)] of an optional string: [None] and the empty string are false. *)
Definition truthy (x : option string) : bool :=
  match x with
  | Some s => Str.truthy s
  | None => false
  end.

(** What [get_prometheus_auth] returns besides [None]: a [dict] of headers,
    or a [requests.auth.HTTPBasicAuth]. *)
Inductive auth_material : Type :=
| HeaderAuth (headers : gmap string string)
| HTTPBasicAuth (user pass : string).

(** ** The world outside the handlers *)

(** The keyword arguments of one [requests.get]. *)
Record request : Type := {
  req_url : string;
  req_params : option (list (string * string));
  req_auth : option auth_material;
  req_headers : gmap string string;
  req_verify : bool
}.

(** What [requests.get] comes back with: no reply at all, or a status code
    and a body, decoded when it is valid JSON. *)
Inductive reply : Type :=
| NoReply
| Response (status_code : Z) (body : option json).

(** The module-level [_metrics_cache] dictionary. *)
Record metrics_cache : Type := {
  cache_data : json;
  cache_timestamp : Q
}.

(** One call of [ctx.report_progress]. *)
Record tick : Type := {
  tick_progress : Z;
  tick_total : Z;
  tick_message : string
}.

Record world : Type := {
  cache : metrics_cache;        (* [_metrics_cache] *)
  now : Q;                      (* the reading of [time.time()] *)
  utcnow : string;              (* [datetime.utcnow().isoformat()] *)
  backend : request -> reply;   (* the answer of the backend to a request *)
  sent : list request;          (* the requests issued so far, oldest first *)
  reported : list tick          (* the ticks reported so far, oldest first *)
}.

(** [_metrics_cache = {"data": None, "timestamp": 0}] *)
Definition empty_cache : metrics_cache :=
  {| cache_data := JNull; cache_timestamp := 0%Q |}.

(** [_CACHE_TTL = 300]: five minutes. *)
Definition _CACHE_TTL : Q := 300%Q.

(** ** Handlers as state transformers that may raise *)

(** A computation takes the world and gives back what it returns or raises,
    and the world it leaves. *)
Definition M (A : Type) : Type := world -> outcome A * world.

(** [return a] *)
Definition ret {A : Type} (a : A) : M A := fun w => (Return a, w).

(** [raise e] *)
Definition raise {A : Type} (e : exn) : M A := fun w => (Raise e, w).

(** [m] and then [k]; an exception of [m] skips [k]. *)
Definition bind {A B : Type} (m : M A) (k : A -> M B) : M B :=
  fun w =>
    match m w with
    | (Return a, w') => k a w'
    | (Raise e, w') => (Raise e, w')
    end.

(** [try: m  except Exception as e: handler(e)] *)
Definition try_except {A : Type} (m : M A) (handler : exn -> M A) : M A :=
  fun w =>
    match m w with
    | (Return a, w') => (Return a, w')
    | (Raise e, w') => handler e w'
    end.

(** An operation that does not touch the world. *)
Definition lift {A : Type} (o : outcome A) : M A := fun w => (o, w).

Declare Scope py_scope.
Delimit Scope py_scope with py.
Notation "x <- m ;; k" := (bind m (fun x => k))
  (at level 100, m at next level, right associativity) : py_scope.
Notation "m ;;; k" := (bind m (fun _ => k))
  (at level 100, right associativity) : py_scope.
Local Open Scope py_scope.

(** [time.time()] *)
Definition time_time : M Q := fun w => (Return (now w), w).

(** [datetime.utcnow().isoformat()] *)
Definition utcnow_isoformat : M string := fun w => (Return (utcnow w), w).

(** Reading and replacing the content of [_metrics_cache]. *)
Definition read_cache : M metrics_cache := fun w => (Return (cache w), w).

Definition write_cache (c : metrics_cache) : M unit :=
  fun w =>
    (Return tt,
     {| cache := c; now := now w; utcnow := utcnow w; backend := backend w;
        sent := sent w; reported := reported w |}).

(** [requests.get(url, params=..., auth=..., headers=..., verify=...)] *)
Definition requests_get (r : request) : M reply :=
  fun w =>
    let w' := {| cache := cache w; now := now w; utcnow := utcnow w;
                 backend := backend w; sent := sent w ++ [r];
                 reported := reported w |} in
    match backend w r with
    | NoReply => (Raise RequestException, w')
    | Response code body => (Return (Response code body), w')
    end.

(** The reporter supplied by the runtime; a handler called without one gets
    [None]. *)
Inductive Context : Type := Reporter.

(** [await ctx.report_progress(progress=..., total=..., message=...)] *)
Definition report_progress (progress total : Z) (message : string) : M unit :=
  fun w =>
    (Return tt,
     {| cache := cache w; now := now w; utcnow := utcnow w; backend := backend w;
        sent := sent w;
        reported := reported w ++ [{| tick_progress := progress;
                                      tick_total := total;
                                      tick_message := message |}] |}).

(** [if ctx: await ctx.report_progress(...)] *)
Definition report_if (ctx : option Context) (progress total : Z) (message : string) : M unit :=
  match ctx with
  | Some _ => report_progress progress total message
  | None => ret tt
  end.

(** ** The request gateway *)

Section Server.

Variable config : PrometheusConfig.

(** The string of an optional setting that was found to be true. *)
Definition text (x : option string) : string :=
  match x with Some s => s | None => "" end.

(** The token wins over the user and password. *)
Definition get_prometheus_auth : option auth_material :=
  if truthy (token config) then
    Some (HeaderAuth {[ "Authorization" := "Bearer " ++ text (token config) ]})
  else if truthy (username config) && truthy (password config) then
    Some (HTTPBasicAuth (text (username config)) (text (password config)))
  else None.

(** [response.raise_for_status()] *)
Definition raise_for_status (r : reply) : M unit :=
  match r with
  | Response code _ =>
      if (400 <=? code) && (code <? 600) then raise (HTTPError code) else ret tt
  | NoReply => ret tt
  end.

(** [response.json()] *)
Definition response_json (r : reply) : M json :=
  match r with
  | Response _ (Some v) => ret v
  | _ => raise InvalidJSON
  end.

(** The three [except] clauses of [make_prometheus_request] log and raise
    again.  [InvalidJSON] stands for the decoding failure as the caller sees
    it: the exception of [requests] itself where that one is a
    [RequestException] (first clause), a [ValueError] built from its text
    otherwise (second clause). *)
Definition make_prometheus_request (endpoint : string)
    (params : option (list (string * string))) : M json :=
  if negb (Str.truthy (url config)) then
    raise (ValueError [Text "Prometheus configuration is missing. Please set PROMETHEUS_URL environment variable."])
  else
    let url := Str.rstrip "/" (url config) ++ "/api/v1/" ++ endpoint in
    let url_ssl_verify := url_ssl_verify config in
    let auth := get_prometheus_auth in
    let headers : gmap string string := ∅ in
    let '(headers, auth) :=
      match auth with
      | Some (HeaderAuth d) => (d ∪ headers, None)
      | _ => (headers, auth)
      end in
    let headers :=
      if truthy (org_id config) then <[ "X-Scope-OrgID" := text (org_id config) ]> headers
      else headers in
    let headers :=
      match custom_headers config with
      | Some custom => if decide (custom = ∅) then headers else custom ∪ headers
      | None => headers
      end in
    response <- requests_get {| req_url := url; req_params := params; req_auth := auth;
                                req_headers := headers; req_verify := url_ssl_verify |} ;;
    raise_for_status response ;;;
    result <- response_json response ;;
    status <- lift (getitem result "status") ;;
    if negb (eq_str status "success") then
      let error_msg :=
        match result with
        | JObj fields =>
            match lookup_field "error" fields with
            | Some e => e
            | None => JStr "Unknown error"
            end
        | _ => JStr "Unknown error"
        end in
      raise (ValueError [Text "Prometheus API error: "; Fmt error_msg])
    else
      lift (getitem result "data").

(** ** The metrics name cache *)

(** [_metrics_cache["data"] = v] *)
Definition set_cache_data (v : json) : M unit :=
  c <- read_cache ;;
  write_cache {| cache_data := v; cache_timestamp := cache_timestamp c |}.

(** [_metrics_cache["timestamp"] = t] *)
Definition set_cache_timestamp (t : Q) : M unit :=
  c <- read_cache ;;
  write_cache {| cache_data := cache_data c; cache_timestamp := t |}.

(** [a < b] on clock readings. *)
Definition Qltb (a b : Q) : bool := negb (Qle_bool b a).

(** The clock is read once, on entry.  [len(data)] is the argument of the
    logging call that follows the two assignments, inside the [try]. *)
Definition get_cached_metrics : M json :=
  current_time <- time_time ;;
  c <- read_cache ;;
  if is_not_none (cache_data c)
     && Qltb (current_time - cache_timestamp c)%Q _CACHE_TTL
  then ret (cache_data c)
  else
    try_except
      (data <- make_prometheus_request "label/__name__/values" None ;;
       set_cache_data data ;;;
       set_cache_timestamp current_time ;;;
       _ <- lift (len data) ;;
       ret data)
      (fun _ =>
         c <- read_cache ;;
         ret (if is_not_none (cache_data c) then cache_data c else JArr [])).

(** ** Tool handlers *)

(** *** health_check *)

Record configuration_flags : Type := {
  prometheus_url_configured : bool;
  authentication_configured : bool;
  org_id_configured : bool
}.

(** A text of the health report: a literal, or [str(e)] of an exception,
    which the model keeps as the exception itself. *)
Inductive report_text : Type :=
| Literal (s : string)
| StrOf (e : exn).

(** The dictionary [health_check] returns; a key that a path does not set is
    [None]. *)
Record health_status : Type := {
  status : string;
  service : string;
  version : option string;
  timestamp : string;
  transport : option string;
  configuration : option configuration_flags;
  prometheus_connectivity : option string;
  prometheus_url : option string;
  prometheus_error : option report_text;
  error : option report_text
}.

(** [health_status["prometheus_connectivity"] = "healthy"] and
    [health_status["prometheus_url"] = config.url] *)
Definition mark_connected (h : health_status) : health_status :=
  {| status := status h; service := service h; version := version h;
     timestamp := timestamp h; transport := transport h;
     configuration := configuration h;
     prometheus_connectivity := Some "healthy";
     prometheus_url := Some (url config);
     prometheus_error := prometheus_error h; error := error h |}.

(** The three assignments of the inner [except] clause. *)
Definition mark_degraded (e : exn) (h : health_status) : health_status :=
  {| status := "degraded"; service := service h; version := version h;
     timestamp := timestamp h; transport := transport h;
     configuration := configuration h;
     prometheus_connectivity := Some "unhealthy";
     prometheus_url := prometheus_url h;
     prometheus_error := Some (StrOf e); error := error h |}.

(** The two assignments of the [else] branch. *)
Definition mark_unconfigured (h : health_status) : health_status :=
  {| status := "unhealthy"; service := service h; version := version h;
     timestamp := timestamp h; transport := transport h;
     configuration := configuration h;
     prometheus_connectivity := prometheus_connectivity h;
     prometheus_url := prometheus_url h;
     prometheus_error := prometheus_error h;
     error := Some (Literal "PROMETHEUS_URL not configured") |}.

(** [int(t)]: the integer part, rounded towards zero. *)
Definition int_of (t : Q) : Z := Z.quot (Qnum t) (Zpos (Qden t)).

Definition health_check : M health_status :=
  try_except
    (stamp <- utcnow_isoformat ;;
     let health_status :=
       {| status := "healthy";
          service := "prometheus-mcp-server";
          version := Some "1.5.0";
          timestamp := stamp;
          transport := Some (match mcp_server_config config with
                             | Some c => mcp_server_transport c
                             | None => "stdio"
                             end);
          configuration := Some
            {| prometheus_url_configured := Str.truthy (url config);
               authentication_configured :=
                 truthy (username config) || truthy (token config);
               org_id_configured := truthy (org_id config) |};
          prometheus_connectivity := None; prometheus_url := None;
          prometheus_error := None; error := None |} in
     if Str.truthy (url config) then
       try_except
         (t <- time_time ;;
          make_prometheus_request "query"
            (Some [("query", "up"); ("time", pretty (int_of t))]) ;;;
          ret (mark_connected health_status))
         (fun e => ret (mark_degraded e health_status))
     else ret (mark_unconfigured health_status))
    (fun e =>
       stamp <- utcnow_isoformat ;;
       ret {| status := "unhealthy"; service := "prometheus-mcp-server";
              version := None; timestamp := stamp; transport := None;
              configuration := None; prometheus_connectivity := None;
              prometheus_url := None; prometheus_error := None;
              error := Some (StrOf e) |}).

(** *** execute_query and execute_range_query *)

Record link : Type := {
  href : string;
  rel : string;
  title : string
}.

Record query_result : Type := {
  resultType : json;
  result : json;
  links : option (list link)
}.

(** The [links] entry both query handlers add unless links are disabled. *)
Definition ui_links (ui_params : list (string * string)) : option (list link) :=
  if negb (disable_prometheus_links config) then
    let prometheus_ui_link :=
      Str.rstrip "/" (url config) ++ "/graph?" ++ Str.urlencode ui_params in
    Some [{| href := prometheus_ui_link; rel := "prometheus-ui";
             title := "Ver no Prometheus UI" |}]
  else None.

Definition execute_query (query : string) (time : option string) : M query_result :=
  let params := [("query", query)] in
  let params := if truthy time then (params ++ [("time", text time)])%list else params in
  data <- make_prometheus_request "query" (Some params) ;;
  result_type <- lift (getitem data "resultType") ;;
  values <- lift (getitem data "result") ;;
  let ui_params := [("g0.expr", query); ("g0.tab", "0")] in
  let ui_params :=
    if truthy time then (ui_params ++ [("g0.moment_input", text time)])%list
    else ui_params in
  ret {| resultType := result_type; result := values; links := ui_links ui_params |}.

Definition execute_range_query (query start end_ step : string)
    (ctx : option Context) : M query_result :=
  let params := [("query", query); ("start", start); ("end", end_); ("step", step)] in
  report_if ctx 0 100 "Iniciando consulta de período..." ;;;
  data <- make_prometheus_request "query_range" (Some params) ;;
  report_if ctx 50 100 "Processando resultados da consulta..." ;;;
  result_type <- lift (getitem data "resultType") ;;
  values <- lift (getitem data "result") ;;
  let ui_params :=
    [("g0.expr", query); ("g0.tab", "0");
     ("g0.range_input", start ++ " to " ++ end_); ("g0.step_input", step)] in
  let result :=
    {| resultType := result_type; result := values; links := ui_links ui_params |} in
  report_if ctx 100 100 "Consulta de período concluída" ;;;
  ret result.

(** *** list_metrics and search_metrics *)

Record PaginatedMetricList : Type := {
  metrics : json;
  total_count : Z;
  returned_count : Z;
  offset : Z;
  has_more : bool
}.

Definition list_metrics (limit : option Z) (offset : Z)
    (filter_pattern : option string) (ctx : option Context) : M PaginatedMetricList :=
  report_if ctx 0 100 "Buscando lista de métricas..." ;;;
  data <- make_prometheus_request "label/__name__/values" None ;;
  match ctx with
  | Some _ =>
      n <- lift (len data) ;;
      report_progress 50 100 ("Processando " ++ pretty n ++ " métricas...")
  | None => ret tt
  end ;;;
  data <-
    (if truthy filter_pattern then
       items <- lift (iterate data) ;;
       filtered_data <- lift (select (Str.lower (text filter_pattern)) items) ;;
       ret (JArr filtered_data)
     else ret data) ;;
  total_count <- lift (len data) ;;
  let start_idx := offset in
  end_idx <-
    match limit with
    | Some l => ret (offset + l)
    | None => lift (len data)
    end ;;
  paginated_data <- lift (getslice data start_idx end_idx) ;;
  returned <- lift (len paginated_data) ;;
  let result :=
    {| metrics := paginated_data; total_count := total_count;
       returned_count := returned; offset := offset;
       has_more := end_idx <? total_count |} in
  report_if ctx 100 100
    ("Obtidas " ++ pretty returned ++ " de " ++ pretty total_count ++ " métricas") ;;;
  ret result.

Definition search_metrics (prefix : string) (limit : option Z) (offset : Z)
    (ctx : option Context) : M PaginatedMetricList :=
  report_if ctx 0 100 "Buscando métricas..." ;;;
  data <- get_cached_metrics ;;
  let term := Str.lower prefix in
  items <- lift (iterate data) ;;
  filtered <- lift (select term items) ;;
  let total_count := Z.of_nat (length filtered) in
  let start_idx := offset in
  let end_idx :=
    match limit with
    | Some l => offset + l
    | None => Z.of_nat (length filtered)
    end in
  let paginated := slice filtered start_idx end_idx in
  let result :=
    {| metrics := JArr paginated; total_count := total_count;
       returned_count := Z.of_nat (length paginated); offset := offset;
       has_more := end_idx <? total_count |} in
  report_if ctx 100 100
    ("Encontradas " ++ pretty (Z.of_nat (length paginated)) ++ " de "
       ++ pretty total_count ++ " métricas") ;;;
  ret result.

(** *** get_metric_metadata *)

Definition get_metric_metadata (metric : string) : M json :=
  let endpoint := "metadata?metric=" ++ metric in
  data <- make_prometheus_request endpoint None ;;
  has_metadata <- lift (contains_str "metadata" data) ;;
  metadata <-
    (if has_metadata then lift (getitem data "metadata")
     else
       has_data <- lift (contains_str "data" data) ;;
       if has_data then lift (getitem data "data") else ret data) ;;
  let metadata := if is_dict metadata then JArr [metadata] else metadata in
  _ <- lift (len metadata) ;;
  ret metadata.

(** *** get_targets *)

Record targets : Type := {
  activeTargets : json;
  droppedTargets : json
}.

(** The two lengths are the arguments of the logging call before the
    [return]. *)
Definition get_targets : M targets :=
  data <- make_prometheus_request "targets" None ;;
  active <- lift (getitem data "activeTargets") ;;
  dropped <- lift (getitem data "droppedTargets") ;;
  _ <- lift (len active) ;;
  _ <- lift (len dropped) ;;
  ret {| activeTargets := active; droppedTargets := dropped |}.

End Server.

(** *** suggest_semconv *)

(** The [catalog] dictionary of [suggest_semconv]. *)
Definition semconv_catalog : list (string * list string) :=
  [("http",
    ["http_server_duration_milliseconds_sum";
     "http_server_duration_milliseconds_count";
     "http_server_active_requests";
     "http_server_request_size";
     "http_server_response_size"]);
   ("http_client",
    ["http_client_duration_milliseconds_sum";
     "http_client_duration_milliseconds_count";
     "http_client_active_requests"]);
   ("rpc",
    ["rpc_server_duration_milliseconds_sum";
     "rpc_server_duration_milliseconds_count";
     "rpc_server_active_requests"]);
   ("db",
    ["db_client_operation_duration_milliseconds_sum";
     "db_client_operation_duration_milliseconds_count";
     "db_client_connections_usage"]);
   ("messaging",
    ["messaging_operation_duration_milliseconds_sum";
     "messaging_operation_duration_milliseconds_count";
     "messaging_clients_active"]);
   ("process",
    ["process_runtime_jvm_cpu_utilization";
     "process_cpu_seconds_total";
     "process_resident_memory_bytes";
     "process_runtime_go_gc_duration_seconds_sum"]);
   ("system",
    ["system_cpu_utilization";
     "system_cpu_usage";
     "system_memory_usage";
     "system_memory_utilization";
     "system_filesystem_usage";
     "system_network_io_bytes";
     "system_load_average_1m"]);
   ("container",
    ["container_cpu_usage_seconds_total";
     "container_memory_usage_bytes";
     "container_memory_working_set_bytes";
     "container_network_receive_bytes_total";
     "container_network_transmit_bytes_total"]);
   ("k8s",
    ["k8s_pod_cpu_usage";
     "k8s_pod_memory_usage";
     "k8s_node_cpu_utilization";
     "k8s_node_memory_utilization";
     "k8s_container_restarts_total"])].

Record semconv_suggestion : Type := {
  domain : string;
  examples : list string;
  known_domains : list string
}.

(** The handler touches nothing outside: it is a function of its argument. *)
Definition suggest_semconv (domain : string) : semconv_suggestion :=
  let domain := Str.lower domain in
  let suggestions :=
    match lookup_field domain semconv_catalog with
    | Some found => found
    | None => []
    end in
  {| domain := domain; examples := suggestions;
     known_domains := map fst semconv_catalog |}.

(** ** Start-up *)

(** [TransportType.values()] *)
Definition TransportType_values : list string := ["stdio"; "http"; "sse"].

(** [MCPServerConfig(mcp_server_transport=..., mcp_bind_host=...,
    mcp_bind_port=...)]: the fields default to [None], and [__post_init__]
    refuses a field that is false. *)
Definition new_MCPServerConfig (transport host : option string) (port : option Z) :
    outcome MCPServerConfig :=
  if negb (truthy transport) then
    Raise (ValueError [Text "MCP SERVER TRANSPORT is required"])
  else if negb (truthy host) then
    Raise (ValueError [Text "MCP BIND HOST is required"])
  else
    match port with
    | Some p =>
        if p =? 0 then Raise (ValueError [Text "MCP BIND PORT is required"])
        else Return {| mcp_server_transport := text transport;
                       mcp_bind_host := text host;
                       mcp_bind_port := p |}
    | None => Raise (ValueError [Text "MCP BIND PORT is required"])
    end.

(** [os.environ.get(name, default)] *)
Definition environ_get (environ : gmap string string) (name default : string) : string :=
  match environ !! name with
  | Some value => value
  | None => default
  end.

(** [value.lower() in ("true", "1", "yes")] *)
Definition flag_is_set (value : string) : bool :=
  let v := Str.lower value in
  String.eqb v "true" || String.eqb v "1" || String.eqb v "yes".

Section Environment.

(** [int] on a string and [json.loads] on the text of the custom headers
    belong to the interpreter and its library; their result on a text, value
    or exception, is taken as given.  [json.loads] is taken to deliver the
    dictionary of strings that the annotation of [custom_headers] names. *)
Variable int_of_str : string -> outcome Z.
Variable json_loads : string -> outcome (gmap string string).

(** The module-level [config = PrometheusConfig(...)] of [server.py], as a
    function of [os.environ].  The arguments are evaluated in the order of
    the source: the port is converted before [MCPServerConfig] is built,
    and the custom headers are decoded last. *)
Definition config_from_environ (environ : gmap string string) : outcome PrometheusConfig :=
  match int_of_str (environ_get environ "PROMETHEUS_MCP_BIND_PORT" "8080") with
  | Raise e => Raise e
  | Return port =>
      match new_MCPServerConfig
              (Some (Str.lower (environ_get environ "PROMETHEUS_MCP_SERVER_TRANSPORT" "stdio")))
              (Some (environ_get environ "PROMETHEUS_MCP_BIND_HOST" "127.0.0.1"))
              (Some port) with
      | Raise e => Raise e
      | Return mcp =>
          match
            (match environ !! "PROMETHEUS_CUSTOM_HEADERS" with
             | Some raw =>
                 if Str.truthy raw then
                   match json_loads raw with
                   | Return custom => Return (Some custom)
                   | Raise e => Raise e
                   end
                 else Return None
             | None => Return None
             end) with
          | Raise e => Raise e
          | Return custom =>
              Return
                {| url := environ_get environ "PROMETHEUS_URL" "";
                   url_ssl_verify :=
                     flag_is_set (environ_get environ "PROMETHEUS_URL_SSL_VERIFY" "True");
                   disable_prometheus_links :=
                     flag_is_set (environ_get environ "PROMETHEUS_DISABLE_LINKS" "False");
                   username := Some (environ_get environ "PROMETHEUS_USERNAME" "");
                   password := Some (environ_get environ "PROMETHEUS_PASSWORD" "");
                   token := Some (environ_get environ "PROMETHEUS_TOKEN" "");
                   org_id := Some (environ_get environ "ORG_ID" "");
                   mcp_server_config := Some mcp;
                   custom_headers := custom |}
          end
      end
  end.

End Environment.

(** [setup_environment] of [main.py]: the port of a configuration is an
    integer already, so its conversion cannot fail. *)
Definition setup_environment (config : PrometheusConfig) : bool :=
  if negb (Str.truthy (url config)) then false
  else
    match mcp_server_config config with
    | Some mcp_config =>
        if negb (existsb (String.eqb (Str.lower (mcp_server_transport mcp_config)))
                   TransportType_values)
        then false
        else true
    | None => true
    end.

(** How [run_server] ends: [sys.exit(code)], or a call of [mcp.run] with the
    transport alone or with the host and the port as well. *)
Inductive launch : Type :=
| SystemExit (code : Z)
| Run (transport : string) (bind : option (string * Z)).

(** [run_server] of [main.py]; a configuration without [mcp_server_config]
    has no [mcp_server_transport] to read. *)
Definition run_server (config : PrometheusConfig) : outcome launch :=
  if negb (setup_environment config) then Return (SystemExit 1)
  else
    match mcp_server_config config with
    | None => Raise AttributeError
    | Some mcp_config =>
        let transport := mcp_server_transport mcp_config in
        let http_transports := ["http"; "sse"] in
        if existsb (String.eqb transport) http_transports then
          Return (Run transport (Some (mcp_bind_host mcp_config, mcp_bind_port mcp_config)))
        else Return (Run transport None)
    end.

(** * Vocabulary of the statements *)

(** ** Catalogs and pages *)

(** A catalog as the backend delivers it: a list of metric names. *)
Definition catalog (names : list string) : json := JArr (map JStr names).

(** The names that contain [pattern], case-insensitively. *)
Definition matching (pattern : string) (names : list string) : list string :=
  List.filter (fun m => Str.contains (Str.lower pattern) (Str.lower m)) names.

(** The names left by the optional filter of [list_metrics]. *)
Definition remaining (filter_pattern : option string) (names : list string) : list string :=
  if truthy filter_pattern then matching (text filter_pattern) names else names.

(** [min(max(total - offset, 0), limit-or-infinity)] *)
Definition page_size (total offset : Z) (limit : option Z) : Z :=
  match limit with
  | Some l => Z.min (Z.max (total - offset) 0) l
  | None => Z.max (total - offset) 0
  end.

(** A limit is valid when it is absent or not negative. *)
Definition valid_limit (limit : option Z) : Prop :=
  match limit with
  | Some l => 0 <= l
  | None => True
  end.

(** ** Worlds, requests and replies *)

(** The world with another list of reported ticks. *)
Definition with_reported (ticks : list tick) (w : world) : world :=
  {| cache := cache w; now := now w; utcnow := utcnow w; backend := backend w;
     sent := sent w; reported := ticks |}.

(** The world at a later reading of the clock, facing a backend that may
    answer differently; the cache and the records of what was sent and
    reported stay. *)
Definition later (t : Q) (b : request -> reply) (w : world) : world :=
  {| cache := cache w; now := t; utcnow := utcnow w; backend := b;
     sent := sent w; reported := reported w |}.

(** The request that [make_prometheus_request] hands to [requests.get]. *)
Definition outbound (config : PrometheusConfig) (endpoint : string)
    (params : option (list (string * string))) : request :=
  let auth := get_prometheus_auth config in
  let headers : gmap string string :=
    match auth with Some (HeaderAuth d) => d ∪ ∅ | _ => ∅ end in
  let headers :=
    if truthy (org_id config) then <[ "X-Scope-OrgID" := text (org_id config) ]> headers
    else headers in
  let headers :=
    match custom_headers config with
    | Some custom => if decide (custom = ∅) then headers else custom ∪ headers
    | None => headers
    end in
  {| req_url := Str.rstrip "/" (url config) ++ "/api/v1/" ++ endpoint;
     req_params := params;
     req_auth := match auth with Some (HeaderAuth _) => None | _ => auth end;
     req_headers := headers;
     req_verify := url_ssl_verify config |}.

(** What [make_prometheus_request] makes of a reply. *)
Definition interpret (r : reply) : outcome json :=
  match r with
  | NoReply => Raise RequestException
  | Response code body =>
      if (400 <=? code) && (code <? 600) then Raise (HTTPError code)
      else
        match body with
        | None => Raise InvalidJSON
        | Some doc =>
            match getitem doc "status" with
            | Raise e => Raise e
            | Return st =>
                if eq_str st "success" then getitem doc "data"
                else
                  Raise (ValueError
                    [Text "Prometheus API error: ";
                     Fmt (match doc with
                          | JObj fields =>
                              match lookup_field "error" fields with
                              | Some e => e
                              | None => JStr "Unknown error"
                              end
                          | _ => JStr "Unknown error"
                          end)])
            end
        end
  end.

(** The world once [r] has been sent. *)
Definition after_sending (r : request) (w : world) : world :=
  {| cache := cache w; now := now w; utcnow := utcnow w; backend := backend w;
     sent := sent w ++ [r]; reported := reported w |}.

(** The cache holds a snapshot younger than the TTL at the reading [t]. *)
Definition fresh (c : metrics_cache) (t : Q) : bool :=
  is_not_none (cache_data c) && Qltb (t - cache_timestamp c)%Q _CACHE_TTL.

(** The exception of a gateway call made with no URL configured. *)
Definition configuration_missing : exn :=
  ValueError [Text "Prometheus configuration is missing. Please set PROMETHEUS_URL environment variable."].

(** The world with another content of the cache. *)
Definition with_cache (c : metrics_cache) (w : world) : world :=
  {| cache := c; now := now w; utcnow := utcnow w; backend := backend w;
     sent := sent w; reported := reported w |}.

(** What a failed refresh falls back to: the snapshot if there is one, an
    empty list otherwise. *)
Definition snapshot_or_empty (c : metrics_cache) : json :=
  match cache_data c with
  | JNull => JArr []
  | snapshot => snapshot
  end.

(** The endpoint that enumerates the metric names. *)
Definition names_endpoint : string := "label/__name__/values".

(** ** Concrete configurations, backends and worlds *)

(** A server with a URL and nothing else configured. *)
Definition plain_config : PrometheusConfig :=
  {| url := "http://prometheus:9090/"; url_ssl_verify := true;
     disable_prometheus_links := false;
     username := Some ""; password := Some ""; token := Some "";
     org_id := Some ""; mcp_server_config := None; custom_headers := None |}.

(** A server with no URL configured. *)
Definition unconfigured : PrometheusConfig :=
  {| url := ""; url_ssl_verify := true; disable_prometheus_links := false;
     username := Some ""; password := Some ""; token := Some "";
     org_id := Some ""; mcp_server_config := None; custom_headers := None |}.

(** A reply [200] with the envelope of a success around [payload]. *)
Definition success (payload : json) : reply :=
  Response 200 (Some (JObj [("status", JStr "success"); ("data", payload)])).

(** A backend that gives the same reply to every request. *)
Definition always (r : reply) : request -> reply := fun _ => r.

(** A small catalog. *)
Definition some_names : list string :=
  ["up"; "http_requests_total"; "HTTP_errors"; "go_goroutines"].

(** A world at the reading [t] of the clock, with the cache [c], facing the
    backend [b]; nothing was sent or reported yet. *)
Definition world_at (t : Q) (c : metrics_cache) (b : request -> reply) : world :=
  {| cache := c; now := t; utcnow := "2024-05-01T12:00:00"; backend := b;
     sent := []; reported := [] |}.

(** A cache filled at the reading [1000]. *)
Definition filled_cache : metrics_cache :=
  {| cache_data := catalog some_names; cache_timestamp := 1000%Q |}.

(** ** What the handlers are expected to build *)

(** The result both listing handlers build from the names left by their
    filter. *)
Definition paginated (names : list string) (limit : option Z) (offset : Z) :
    PaginatedMetricList :=
  let end_idx :=
    match limit with
    | Some l => offset + l
    | None => Z.of_nat (length names)
    end in
  {| metrics := catalog (slice names offset end_idx);
     total_count := Z.of_nat (length names);
     returned_count := Z.of_nat (length (slice names offset end_idx));
     offset := offset;
     has_more := end_idx <? Z.of_nat (length names) |}.

(** A world whose backend delivers [some_names], with an empty cache. *)
Definition catalog_world : world :=
  world_at 12000%Q empty_cache (always (success (catalog some_names))).

(** The [Authorization] entry of the custom headers, if there is one. *)
Definition custom_authorization (config : PrometheusConfig) : option string :=
  match custom_headers config with
  | Some custom => custom !! "Authorization"
  | None => None
  end.

(** A token and a user with a password are all configured. *)
Definition both_credentials (config : PrometheusConfig) : Prop :=
  truthy (token config) = true
  /\ truthy (username config) = true
  /\ truthy (password config) = true.

(** Token and basic credentials, and a custom header named [Authorization]. *)
Definition overriding_config : PrometheusConfig :=
  {| url := "http://prometheus:9090"; url_ssl_verify := true;
     disable_prometheus_links := false;
     username := Some "admin"; password := Some "secret"; token := Some "abc123";
     org_id := Some "tenant-1"; mcp_server_config := None;
     custom_headers := Some {[ "Authorization" := "Basic YWRtaW46c2VjcmV0" ]} |}.

(** Token and basic credentials, and a custom header of another name. *)
Definition token_config : PrometheusConfig :=
  {| url := "http://prometheus:9090"; url_ssl_verify := true;
     disable_prometheus_links := false;
     username := Some "admin"; password := Some "secret"; token := Some "abc123";
     org_id := Some "tenant-1"; mcp_server_config := None;
     custom_headers := Some {[ "X-Trace" := "on" ]} |}.

(** The error of an envelope: its [error] field, [Unknown error] without
    one. *)
Definition reported_error (fields : list (string * json)) : json :=
  match lookup_field "error" fields with
  | Some e => e
  | None => JStr "Unknown error"
  end.

(** The exception raised for an envelope whose status is not [success]. *)
Definition backend_failure (fields : list (string * json)) : exn :=
  ValueError [Text "Prometheus API error: "; Fmt (reported_error fields)].

(** The text of an exception that has one in the model. *)
Definition failure_text (e : exn) : option string :=
  match e with
  | ValueError msg => message_text msg
  | _ => None
  end.

(** A backend that answers [200] with a body that reports an error. *)
Definition erring (fields : list (string * json)) : request -> reply :=
  always (Response 200 (Some (JObj fields))).

(** The parameters of the probe that [health_check] sends: an instant query
    for [up] at the reading of the clock. *)
Definition probe_params (w : world) : option (list (string * string)) :=
  Some [("query", "up"); ("time", pretty (int_of (now w)))].

(** The value that the three shapes of a payload designate: the [metadata]
    entry, else the [data] entry, else the payload itself. *)
Definition designated (payload : json) : json :=
  match payload with
  | JObj fields =>
      match lookup_field "metadata" fields with
      | Some v => v
      | None =>
          match lookup_field "data" fields with
          | Some v => v
          | None => payload
          end
      end
  | _ => payload
  end.

(** The list made of it: a lone dictionary becomes a list of one element. *)
Definition normalized (payload : json) : json :=
  let v := designated payload in
  if is_dict v then JArr [v] else v.

(** A payload of metadata: a dictionary, or a list of dictionaries. *)
Definition metadata_payload (payload : json) : bool :=
  match payload with
  | JObj _ => true
  | JArr items => forallb is_dict items
  | _ => false
  end.

(** [v] is a list or a dictionary. *)
Definition list_or_dict (v : json) : bool :=
  match v with
  | JArr _ | JObj _ => true
  | _ => false
  end.

(** The reply of the scenario of the specification. *)
Definition gauge_reply : reply :=
  success (JObj [("metadata", JArr [JObj [("type", JStr "gauge")]])]).

(** The three ticks of [execute_range_query]. *)
Definition range_ticks : list tick :=
  [{| tick_progress := 0; tick_total := 100;
      tick_message := "Iniciando consulta de período..." |};
   {| tick_progress := 50; tick_total := 100;
      tick_message := "Processando resultados da consulta..." |};
   {| tick_progress := 100; tick_total := 100;
      tick_message := "Consulta de período concluída" |}].

(** The parameters of the request of a range query. *)
Definition range_params (query start end_ step : string) :
    option (list (string * string)) :=
  Some [("query", query); ("start", start); ("end", end_); ("step", step)].

(** A backend that answers a range query with an empty matrix. *)
Definition matrix_world : world :=
  world_at 12000%Q empty_cache
    (always (success (JObj [("resultType", JStr "matrix"); ("result", JArr [])]))).

(** ** Requests, headers and start-up *)

(** The configuration with another URL. *)
Definition with_url (u : string) (config : PrometheusConfig) : PrometheusConfig :=
  {| url := u; url_ssl_verify := url_ssl_verify config;
     disable_prometheus_links := disable_prometheus_links config;
     username := username config; password := password config;
     token := token config; org_id := org_id config;
     mcp_server_config := mcp_server_config config;
     custom_headers := custom_headers config |}.

(** The entry [k] of the custom headers, if they have one. *)
Definition custom_header (config : PrometheusConfig) (k : string) : option string :=
  match custom_headers config with
  | Some custom => custom !! k
  | None => None
  end.

(** The header [k] that the gateway sets by itself: the tenant under
    [X-Scope-OrgID], the bearer token under [Authorization]. *)
Definition own_header (config : PrometheusConfig) (k : string) : option string :=
  if String.eqb k "X-Scope-OrgID" && truthy (org_id config) then
    Some (text (org_id config))
  else if String.eqb k "Authorization" && truthy (token config) then
    Some ("Bearer " ++ text (token config))
  else None.

(** The last character of [s] is [c]. *)
Fixpoint ends_with (c : ascii) (s : string) : bool :=
  match s with
  | EmptyString => false
  | String a EmptyString => Ascii.eqb a c
  | String _ rest => ends_with c rest
  end.

(** A user with a password and no token. *)
Definition basic_config : PrometheusConfig :=
  {| url := "http://prometheus:9090//"; url_ssl_verify := false;
     disable_prometheus_links := true;
     username := Some "admin"; password := Some "secret"; token := Some "";
     org_id := Some "tenant-1"; mcp_server_config := None;
     custom_headers := Some {[ "X-Scope-OrgID" := "tenant-2" ]} |}.

(** Texts of decimal digits as integers; any other text is refused. *)
Fixpoint decimal_digits (acc : Z) (s : string) : option Z :=
  match s with
  | EmptyString => Some acc
  | String c rest =>
      let n := nat_of_ascii c in
      if (48 <=? n)%nat && (n <=? 57)%nat
      then decimal_digits (10 * acc + Z.of_nat (n - 48)) rest
      else None
  end.

(** A stand-in for [int] on texts: digits only. *)
Definition decimal (s : string) : outcome Z :=
  match s with
  | EmptyString => Raise (ValueError [Text "invalid literal for int()"])
  | _ =>
      match decimal_digits 0 s with
      | Some n => Return n
      | None => Raise (ValueError [Text "invalid literal for int()"])
      end
  end.

(** A stand-in for [json.loads] that knows no text. *)
Definition no_headers (raw : string) : outcome (gmap string string) :=
  Raise InvalidJSON.

(** An environment that names the backend and asks for the HTTP transport. *)
Definition http_environ : gmap string string :=
  {[ "PROMETHEUS_URL" := "http://prometheus:9090";
     "PROMETHEUS_MCP_SERVER_TRANSPORT" := "HTTP";
     "PROMETHEUS_URL_SSL_VERIFY" := "on" ]}.

(** ** Vocabulary of the further properties *)

(** Case analysis on every outcome that a goal still scrutinises. *)
Ltac split_outcomes :=
  repeat (simpl;
          match goal with
          | |- context [match ?x with Return _ => _ | Raise _ => _ end] => destruct x
          end).

(** The first tick of each handler that reports. *)
Definition first_tick (message : string) : tick :=
  {| tick_progress := 0; tick_total := 100; tick_message := message |}.

(** The names of a page, when it is a list of names. *)
Definition names_of (v : json) : list json :=
  match v with
  | JArr items => items
  | _ => []
  end.

(** The link to the graph page of the backend for a list of parameters. *)
Definition graph_link (config : PrometheusConfig) (ui_params : list (string * string)) :
    link :=
  {| href := Str.rstrip "/" (url config) ++ "/graph?" ++ Str.urlencode ui_params;
     rel := "prometheus-ui"; title := "Ver no Prometheus UI" |}.

(** The parameters of the request of an instant query: a time that is absent
    or empty is left out. *)
Definition instant_params (query : string) (time : option string) :
    option (list (string * string)) :=
  Some (if truthy time then [("query", query); ("time", text time)]
        else [("query", query)]).

(** Every example of the entry starts with the name of its domain and an
    underscore. *)
Definition carries_domain (entry : string * list string) : bool :=
  forallb (Str.starts_with (fst entry ++ "_")) (snd entry).

(** The entry has an example. *)
Definition has_examples (entry : string * list string) : bool :=
  match snd entry with [] => false | _ :: _ => true end.

(** The world after the probe of [health_check]. *)
Definition probe (config : PrometheusConfig) (w : world) : outcome json * world :=
  make_prometheus_request config "query" (probe_params w) w.

(** A user and nothing else. *)
Definition user_only_config : PrometheusConfig :=
  {| url := "http://prometheus:9090"; url_ssl_verify := true;
     disable_prometheus_links := false;
     username := Some "admin"; password := Some ""; token := Some "";
     org_id := Some ""; mcp_server_config := None; custom_headers := None |}.

(** * Properties *)

(** ** Sequences and strings *)

Section Sequences.

Context {A : Type}.

Lemma slice_length (l : list A) (start stop : Z) :
  0 <= start -> 0 <= stop ->
  Z.of_nat (length (slice l start stop))
  = Z.max 0 (Z.min stop (Z.of_nat (length l)) - Z.min start (Z.of_nat (length l))).
Proof.
  intros Hstart Hstop. unfold slice, clamp_index.
  destruct (Z.ltb_spec start 0) as [?|_]; [lia|].
  destruct (Z.ltb_spec stop 0) as [?|_]; [lia|].
  rewrite length_take, length_drop. lia.
Qed.

Lemma slice_page_length (l : list A) (limit : option Z) (offset : Z) :
  0 <= offset -> valid_limit limit ->
  Z.of_nat (length (slice l offset
     (match limit with Some k => offset + k | None => Z.of_nat (length l) end)))
  = page_size (Z.of_nat (length l)) offset limit.
Proof.
  intros Hoff Hlim. rewrite slice_length; [|lia|destruct limit; simpl in *; lia].
  destruct limit; simpl in *; lia.
Qed.

Lemma page_has_more (n : Z) (limit : option Z) (offset : Z) :
  0 <= n -> 0 <= offset -> valid_limit limit ->
  (match limit with Some k => offset + k | None => n end <? n)
  = (offset + page_size n offset limit <? n).
Proof.
  intros Hn Hoff Hlim. destruct limit as [k|]; simpl in *.
  - destruct (Z.ltb_spec (offset + k) n), (Z.ltb_spec (offset + Z.min (Z.max (n - offset) 0) k) n);
      try reflexivity; lia.
  - destruct (Z.ltb_spec n n), (Z.ltb_spec (offset + Z.max (n - offset) 0) n);
      try reflexivity; lia.
Qed.

End Sequences.

Lemma contains_empty (s : string) : Str.contains "" s = true.
Proof. destruct s; reflexivity. Qed.

Lemma select_catalog (term : string) (names : list string) :
  select term (map JStr names)
  = Return (map JStr (List.filter (fun m => Str.contains term (Str.lower m)) names)).
Proof.
  induction names as [|m names IH]; simpl; [reflexivity|].
  rewrite IH. destruct (Str.contains term (Str.lower m)); reflexivity.
Qed.

Lemma matching_empty (names : list string) : matching "" names = names.
Proof.
  unfold matching. change (Str.lower "") with "".
  induction names as [|m names IH]; simpl; [reflexivity|].
  rewrite contains_empty. now rewrite IH.
Qed.

(** ** The gateway *)

Section Gateway.

Variable config : PrometheusConfig.

(** A call of the gateway sends one request and interprets the reply, or
    raises before sending anything when no URL is configured. *)
Lemma make_prometheus_request_eq endpoint params (w : world) :
  make_prometheus_request config endpoint params w
  = if Str.truthy (url config)
    then (interpret (backend w (outbound config endpoint params)),
          after_sending (outbound config endpoint params) w)
    else (Raise configuration_missing, w).
Proof.
  unfold make_prometheus_request, outbound.
  destruct (Str.truthy (url config)); simpl; [|reflexivity].
  destruct (get_prometheus_auth config) as [[d|u p]|]; simpl;
    unfold bind, requests_get, after_sending; simpl;
    match goal with |- context [backend w ?r] => destruct (backend w r) as [|code body] end;
    simpl; try reflexivity;
    unfold raise_for_status, raise, ret, lift; simpl;
    destruct ((400 <=? code) && (code <? 600)); simpl; try reflexivity;
    destruct body as [doc|]; simpl; try reflexivity;
    destruct (getitem doc "status") as [st|e]; simpl; try reflexivity;
    destruct (eq_str st "success"); simpl; reflexivity.
Qed.

Lemma gateway_with_reported endpoint params ticks (w : world) :
  make_prometheus_request config endpoint params (with_reported ticks w)
  = (fst (make_prometheus_request config endpoint params w),
     with_reported ticks (snd (make_prometheus_request config endpoint params w))).
Proof.
  rewrite !make_prometheus_request_eq.
  destruct (Str.truthy (url config)); reflexivity.
Qed.

(** The gateway leaves the cache, the clock and the reported ticks alone. *)
Lemma gateway_preserves endpoint params (w : world) :
  let w' := snd (make_prometheus_request config endpoint params w) in
  cache w' = cache w /\ now w' = now w /\ backend w' = backend w
  /\ reported w' = reported w.
Proof.
  rewrite make_prometheus_request_eq.
  destruct (Str.truthy (url config)); simpl; auto.
Qed.

End Gateway.

(** ** The metrics name cache *)

Section Cache.

Variable config : PrometheusConfig.

Lemma snapshot_or_empty_eq (c : metrics_cache) :
  (if is_not_none (cache_data c) then cache_data c else JArr []) = snapshot_or_empty c.
Proof. unfold snapshot_or_empty. destruct (cache_data c); reflexivity. Qed.

(** The paths of [get_cached_metrics]: a fresh cache is returned as it is;
    otherwise the gateway is called once, and either its payload is stored
    under the reading of the clock taken on entry, or the cache stays and
    the fallback is returned. *)
Lemma get_cached_metrics_eq (w : world) :
  get_cached_metrics config w
  = if fresh (cache w) (now w) then (Return (cache_data (cache w)), w)
    else
      match make_prometheus_request config names_endpoint None w with
      | (Return payload, w1) =>
          let stored := {| cache_data := payload; cache_timestamp := now w |} in
          (Return (match len payload with
                   | Return _ => payload
                   | Raise _ => snapshot_or_empty stored
                   end),
           with_cache stored w1)
      | (Raise _, w1) => (Return (snapshot_or_empty (cache w1)), w1)
      end.
Proof.
  unfold get_cached_metrics, bind, time_time, read_cache, try_except, fresh. simpl.
  destruct (is_not_none (cache_data (cache w))
            && Qltb (now w - cache_timestamp (cache w)) _CACHE_TTL); [reflexivity|].
  unfold names_endpoint.
  destruct (make_prometheus_request config "label/__name__/values" None w)
    as [[payload|e] w1]; simpl.
  - unfold with_cache, lift, ret. simpl.
    destruct (len payload); simpl; [reflexivity|].
    unfold snapshot_or_empty. simpl. destruct payload; reflexivity.
  - unfold ret. now rewrite snapshot_or_empty_eq.
Qed.

Lemma get_cached_metrics_with_reported ticks (w : world) :
  get_cached_metrics config (with_reported ticks w)
  = (fst (get_cached_metrics config w),
     with_reported ticks (snd (get_cached_metrics config w))).
Proof.
  rewrite !get_cached_metrics_eq. simpl.
  destruct (fresh (cache w) (now w)); [reflexivity|].
  rewrite gateway_with_reported.
  destruct (make_prometheus_request config names_endpoint None w) as [[payload|e] w1];
    reflexivity.
Qed.

(** The cache never raises. *)
Lemma get_cached_metrics_returns (w : world) :
  exists v, fst (get_cached_metrics config w) = Return v.
Proof.
  rewrite get_cached_metrics_eq.
  destruct (fresh (cache w) (now w)); [eexists; reflexivity|].
  destruct (make_prometheus_request config names_endpoint None w) as [[payload|e] w1];
    eexists; reflexivity.
Qed.

Lemma fresh_snapshot (c : metrics_cache) (t : Q) :
  fresh c t = true -> snapshot_or_empty c = cache_data c.
Proof.
  unfold fresh, snapshot_or_empty. destruct (cache_data c); simpl; congruence.
Qed.

(** When the gateway call raises, the fallback is returned and the cache is
    as it was. *)
Lemma get_cached_metrics_fallback (w : world) (e : exn) :
  fst (make_prometheus_request config names_endpoint None w) = Raise e ->
  fst (get_cached_metrics config w) = Return (snapshot_or_empty (cache w))
  /\ cache (snd (get_cached_metrics config w)) = cache w.
Proof.
  intros Hfail. rewrite get_cached_metrics_eq.
  destruct (fresh (cache w) (now w)) eqn:Hfresh.
  - simpl. split; [|reflexivity].
    now rewrite (fresh_snapshot _ _ Hfresh).
  - pose proof (gateway_preserves config names_endpoint None w) as Hkeep.
    destruct (make_prometheus_request config names_endpoint None w) as [[payload|e'] w1];
      simpl in *; [discriminate|].
    destruct Hkeep as [Hcache _]. rewrite Hcache. split; reflexivity.
Qed.

(** A stale cache stays stale as the clock advances. *)
Lemma stale_later (c : metrics_cache) (t t' : Q) :
  fresh c t = false -> (t <= t')%Q -> fresh c t' = false.
Proof.
  unfold fresh, Qltb. intros Hstale Hle.
  destruct (is_not_none (cache_data c)); simpl in *; [|reflexivity].
  apply negb_false_iff in Hstale. apply negb_false_iff.
  apply Qle_bool_iff in Hstale. apply Qle_bool_iff.
  apply Qle_trans with (t - cache_timestamp c)%Q; [exact Hstale|].
  unfold Qminus. apply Qplus_le_l. exact Hle.
Qed.

End Cache.

Lemma Qltb_lt (a b : Q) : Qltb a b = true <-> (a < b)%Q.
Proof.
  unfold Qltb. rewrite negb_true_iff. split.
  - intros H. apply Qnot_le_lt. intros Hle.
    apply Qle_bool_iff in Hle. congruence.
  - intros H. destruct (Qle_bool b a) eqn:E; [|reflexivity].
    apply Qle_bool_iff in E. exfalso. exact (Qlt_not_le _ _ H E).
Qed.

Lemma fresh_iff (c : metrics_cache) (t : Q) :
  fresh c t = true
  <-> cache_data c <> JNull /\ (t - cache_timestamp c < _CACHE_TTL)%Q.
Proof.
  unfold fresh. rewrite andb_true_iff, Qltb_lt.
  destruct (cache_data c); simpl; intuition congruence.
Qed.

Lemma expired_stale (c : metrics_cache) (t : Q) :
  (_CACHE_TTL <= t - cache_timestamp c)%Q -> fresh c t = false.
Proof.
  intros H. destruct (fresh c t) eqn:E; [|reflexivity].
  apply fresh_iff in E. destruct E as [_ E].
  exfalso. exact (Qlt_not_le _ _ E H).
Qed.

Lemma report_progress_eq progress total message (w : world) :
  report_progress progress total message w
  = (Return tt,
     with_reported (reported w ++ [{| tick_progress := progress; tick_total := total;
                                      tick_message := message |}]) w).
Proof. reflexivity. Qed.

Lemma with_reported_same (w : world) : with_reported (reported w) w = w.
Proof. destruct w; reflexivity. Qed.

Section SearchWorld.

Variable config : PrometheusConfig.

(** What [search_metrics] does to the world is what its one call of
    [get_cached_metrics] does, reported ticks apart. *)
Lemma search_metrics_world prefix limit offset ctx (w : world) :
  exists ticks,
    snd (search_metrics config prefix limit offset ctx w)
    = with_reported ticks (snd (get_cached_metrics config w)).
Proof.
  unfold search_metrics, report_if, bind, lift, ret.
  destruct ctx as [c|].
  - rewrite report_progress_eq, get_cached_metrics_with_reported.
    destruct (get_cached_metrics config w) as [[payload|e] w1]; simpl;
      [|eexists; reflexivity].
    destruct (iterate payload) as [items|e]; simpl; [|eexists; reflexivity].
    destruct (select (Str.lower prefix) items) as [kept|e]; simpl; eexists; reflexivity.
  - simpl.
    destruct (get_cached_metrics config w) as [[payload|e] w1]; simpl;
      [|exists (reported w1); now rewrite with_reported_same].
    destruct (iterate payload) as [items|e]; simpl;
      [|exists (reported w1); now rewrite with_reported_same].
    destruct (select (Str.lower prefix) items) as [kept|e]; simpl;
      exists (reported w1); now rewrite with_reported_same.
Qed.

Lemma search_metrics_sent prefix limit offset ctx (w : world) :
  sent (snd (search_metrics config prefix limit offset ctx w))
  = sent (snd (get_cached_metrics config w)).
Proof.
  destruct (search_metrics_world prefix limit offset ctx w) as [ticks ->]. reflexivity.
Qed.

End SearchWorld.

(** ** Claims on the cache *)

(** C2.  [get_cached_metrics] never raises: in every world it returns a
    value.  When the gateway call for the catalog fails, what it returns is
    the snapshot in the cache if there is one and the empty list otherwise,
    and the cache is as it was. *)
Theorem get_cached_metrics_never_raises (config : PrometheusConfig) (w : world) :
  (exists v, fst (get_cached_metrics config w) = Return v)
  /\ (forall e,
        fst (make_prometheus_request config names_endpoint None w) = Raise e ->
        fst (get_cached_metrics config w)
        = Return (match cache_data (cache w) with
                  | JNull => JArr []
                  | snapshot => snapshot
                  end)
        /\ cache (snd (get_cached_metrics config w)) = cache w).
Proof.
  split; [apply get_cached_metrics_returns|].
  intros e Hfail. fold (snapshot_or_empty (cache w)).
  exact (get_cached_metrics_fallback config w e Hfail).
Qed.

(** With a snapshot three hours old and a backend that does not answer, the
    snapshot is served; with an empty cache, the empty list. *)
Lemma get_cached_metrics_never_raises_witness :
  fst (get_cached_metrics plain_config (world_at 12000%Q filled_cache (always NoReply)))
  = Return (catalog some_names)
  /\ fst (get_cached_metrics plain_config (world_at 12000%Q empty_cache (always NoReply)))
     = Return (JArr []).
Proof.
  split.
  - exact (proj1 (proj2 (get_cached_metrics_never_raises plain_config
             (world_at 12000%Q filled_cache (always NoReply))) RequestException eq_refl)).
  - exact (proj1 (proj2 (get_cached_metrics_never_raises plain_config
             (world_at 12000%Q empty_cache (always NoReply))) RequestException eq_refl)).
Defined.

(** C9.  When the gateway call for the catalog fails, the snapshot and the
    timestamp in the cache are both as they were; and if that call was made
    because the cache was not fresh, a call of [get_cached_metrics] at any
    later reading of the clock finds the cache not fresh again and sends what
    one more gateway call sends: one request for the catalog where a URL is
    configured. *)
Theorem failed_refresh_leaves_cache (config : PrometheusConfig) (w : world) (e : exn) :
  fst (make_prometheus_request config names_endpoint None w) = Raise e ->
  let w1 := snd (get_cached_metrics config w) in
  cache_data (cache w1) = cache_data (cache w)
  /\ cache_timestamp (cache w1) = cache_timestamp (cache w)
  /\ (fresh (cache w) (now w) = false ->
      forall (t : Q) (b : request -> reply), (now w <= t)%Q ->
        let w2 := later t b w1 in
        fresh (cache w2) (now w2) = false
        /\ sent (snd (get_cached_metrics config w2))
           = sent (snd (make_prometheus_request config names_endpoint None w2))
        /\ (Str.truthy (url config) = true ->
            sent (snd (get_cached_metrics config w2))
            = (sent w1 ++ [outbound config names_endpoint None])%list)).
Proof.
  intros Hfail w1.
  destruct (get_cached_metrics_fallback config w e Hfail) as [_ Hcache].
  fold w1 in Hcache.
  rewrite Hcache. split; [reflexivity|]. split; [reflexivity|].
  intros Hstale t b Hle w2.
  assert (Hstale2 : fresh (cache w2) (now w2) = false).
  { unfold w2. simpl. rewrite Hcache. exact (stale_later _ _ _ Hstale Hle). }
  split; [exact Hstale2|].
  assert (Hsent : sent (snd (get_cached_metrics config w2))
                  = sent (snd (make_prometheus_request config names_endpoint None w2))).
  { rewrite get_cached_metrics_eq, Hstale2.
    destruct (make_prometheus_request config names_endpoint None w2)
      as [[payload|e'] w3]; reflexivity. }
  split; [exact Hsent|].
  intros Hurl. rewrite Hsent, make_prometheus_request_eq, Hurl. reflexivity.
Qed.

(** A stale snapshot and a backend that answers [503]: the cache is untouched
    by the failure, and a call a minute later, whatever the backend answers
    then, sends a request for the catalog again. *)
Lemma failed_refresh_leaves_cache_witness :
  cache (snd (get_cached_metrics plain_config
                (world_at 12000%Q filled_cache (always (Response 503 None)))))
  = filled_cache
  /\ sent (snd (get_cached_metrics plain_config
                  (later 12060%Q (always (success (catalog some_names)))
                     (snd (get_cached_metrics plain_config
                             (world_at 12000%Q filled_cache (always (Response 503 None))))))))
     = [outbound plain_config names_endpoint None;
        outbound plain_config names_endpoint None].
Proof.
  destruct (failed_refresh_leaves_cache plain_config
              (world_at 12000%Q filled_cache (always (Response 503 None)))
              (HTTPError 503) eq_refl) as [Hdata [Hstamp Hnext]].
  split.
  - reflexivity.
  - assert (Hle : (12000 <= 12060)%Q) by (vm_compute; discriminate).
    exact (proj2 (proj2 (Hnext eq_refl 12060%Q
                           (always (success (catalog some_names))) Hle)) eq_refl).
Defined.

Section CachePaths.

Variable config : PrometheusConfig.

Lemma get_cached_metrics_fresh (w : world) :
  fresh (cache w) (now w) = true ->
  get_cached_metrics config w = (Return (cache_data (cache w)), w).
Proof. intros H. now rewrite get_cached_metrics_eq, H. Qed.

Lemma get_cached_metrics_stale_sent (w : world) :
  fresh (cache w) (now w) = false ->
  sent (snd (get_cached_metrics config w))
  = sent (snd (make_prometheus_request config names_endpoint None w)).
Proof.
  intros H. rewrite get_cached_metrics_eq, H.
  destruct (make_prometheus_request config names_endpoint None w) as [[payload|e] w1];
    reflexivity.
Qed.

Lemma get_cached_metrics_fetch (w : world) (payload : json) :
  fresh (cache w) (now w) = false ->
  fst (make_prometheus_request config names_endpoint None w) = Return payload ->
  snd (get_cached_metrics config w)
  = with_cache {| cache_data := payload; cache_timestamp := now w |}
      (after_sending (outbound config names_endpoint None) w).
Proof.
  intros Hstale Hfetch. rewrite get_cached_metrics_eq, Hstale.
  rewrite make_prometheus_request_eq in *.
  destruct (Str.truthy (url config)); simpl in *; [|discriminate].
  rewrite Hfetch. reflexivity.
Qed.

End CachePaths.

(** C4.  Take two calls of [search_metrics], the second at the reading [t2]
    of the clock and facing the backend [b2].
    - When both readings are within the TTL of the snapshot in the cache, the
      two calls send nothing.
    - When the first call finds the cache not fresh and its gateway call
      delivers a catalog, and the second reading is within the TTL of the
      first, the two calls send that one request for the catalog.
    - A call at a reading that is the TTL or more after the timestamp of the
      cache sends what one gateway call for the catalog sends: exactly one
      request where a URL is configured. *)
Theorem search_metrics_fetches_once (config : PrometheusConfig) (w : world)
    (prefix1 prefix2 : string) (limit1 limit2 : option Z) (offset1 offset2 : Z)
    (ctx1 ctx2 : option Context) (t2 : Q) (b2 : request -> reply) :
  let first := search_metrics config prefix1 limit1 offset1 ctx1 w in
  let second :=
    search_metrics config prefix2 limit2 offset2 ctx2 (later t2 b2 (snd first)) in
  (cache_data (cache w) <> JNull ->
   (now w - cache_timestamp (cache w) < _CACHE_TTL)%Q ->
   (t2 - cache_timestamp (cache w) < _CACHE_TTL)%Q ->
   sent (snd second) = sent w)
  /\ (forall payload : json,
        fresh (cache w) (now w) = false ->
        fst (make_prometheus_request config names_endpoint None w) = Return payload ->
        payload <> JNull ->
        (t2 - now w < _CACHE_TTL)%Q ->
        sent (snd second) = (sent w ++ [outbound config names_endpoint None])%list)
  /\ ((_CACHE_TTL <= now w - cache_timestamp (cache w))%Q ->
      sent (snd first)
      = sent (snd (make_prometheus_request config names_endpoint None w))
      /\ (Str.truthy (url config) = true ->
          sent (snd first) = (sent w ++ [outbound config names_endpoint None])%list)).
Proof.
  intros first second. unfold second, first.
  rewrite !search_metrics_sent. split; [|split].
  - intros Hdata Hnow Ht2.
    assert (Hfresh : fresh (cache w) (now w) = true) by (apply fresh_iff; auto).
    assert (Hfirst : exists ticks,
               snd (search_metrics config prefix1 limit1 offset1 ctx1 w)
               = with_reported ticks w).
    { destruct (search_metrics_world config prefix1 limit1 offset1 ctx1 w) as [ticks Hw].
      exists ticks. now rewrite Hw, get_cached_metrics_fresh. }
    destruct Hfirst as [ticks ->].
    rewrite get_cached_metrics_fresh; [reflexivity|].
    simpl. apply fresh_iff. auto.
  - intros payload Hstale Hfetch Hpayload Ht2.
    destruct (search_metrics_world config prefix1 limit1 offset1 ctx1 w) as [ticks ->].
    rewrite (get_cached_metrics_fetch config w payload Hstale Hfetch).
    rewrite get_cached_metrics_fresh; [reflexivity|].
    simpl. apply fresh_iff. simpl. auto.
  - intros Hexpired.
    pose proof (expired_stale _ _ Hexpired) as Hstale.
    rewrite (get_cached_metrics_stale_sent config w Hstale).
    split; [reflexivity|].
    intros Hurl. now rewrite make_prometheus_request_eq, Hurl.
Qed.

(** An empty cache at the reading [12000] and a backend that delivers the
    catalog: a second call a minute later, even facing a backend that is
    down, leaves the one request of the first call as the only one sent. *)
Lemma search_metrics_fetches_once_witness :
  sent (snd (search_metrics plain_config "http" (Some 50) 0 None
               (later 12060%Q (always NoReply)
                  (snd (search_metrics plain_config "up" (Some 50) 0 None
                          (world_at 12000%Q empty_cache
                             (always (success (catalog some_names)))))))))
  = [outbound plain_config names_endpoint None].
Proof.
  refine (proj1 (proj2 (search_metrics_fetches_once plain_config
            (world_at 12000%Q empty_cache (always (success (catalog some_names))))
            "up" "http" (Some 50) (Some 50) 0 0 None None 12060%Q (always NoReply)))
          (catalog some_names) eq_refl eq_refl _ _).
  - discriminate.
  - vm_compute. reflexivity.
Defined.

(** ** Pagination *)

Lemma slice_map {A B : Type} (f : A -> B) (l : list A) (start stop : Z) :
  slice (map f l) start stop = map f (slice l start stop).
Proof.
  unfold slice. rewrite length_map, <- firstn_map, <- skipn_map. reflexivity.
Qed.

Section Listing.

Variable config : PrometheusConfig.

(** On a catalog, [list_metrics] returns the page of the names left by its
    filter. *)
Lemma list_metrics_catalog limit offset filter_pattern ctx (w : world) names :
  fst (make_prometheus_request config names_endpoint None w) = Return (catalog names) ->
  fst (list_metrics config limit offset filter_pattern ctx w)
  = Return (paginated (remaining filter_pattern names) limit offset).
Proof.
  intros Hfetch. unfold list_metrics, report_if, bind, lift, ret, remaining, paginated.
  fold names_endpoint.
  destruct ctx as [c|].
  - rewrite report_progress_eq, gateway_with_reported.
    destruct (make_prometheus_request config names_endpoint None w) as [[payload|e] w1];
      simpl in Hfetch; [|discriminate].
    injection Hfetch as ->.
    destruct limit as [l|], (truthy filter_pattern); simpl;
      rewrite ?select_catalog; simpl;
      rewrite ?slice_map, ?length_map; reflexivity.
  - simpl.
    destruct (make_prometheus_request config names_endpoint None w) as [[payload|e] w1];
      simpl in Hfetch; [|discriminate].
    injection Hfetch as ->.
    destruct limit as [l|], (truthy filter_pattern); simpl;
      rewrite ?select_catalog; simpl;
      rewrite ?slice_map, ?length_map; reflexivity.
Qed.

(** On a catalog out of the cache, [search_metrics] returns the page of the
    names that contain the term. *)
Lemma search_metrics_catalog prefix limit offset ctx (w : world) names :
  fst (get_cached_metrics config w) = Return (catalog names) ->
  fst (search_metrics config prefix limit offset ctx w)
  = Return (paginated (matching prefix names) limit offset).
Proof.
  intros Hget. unfold search_metrics, report_if, bind, lift, ret, paginated.
  destruct ctx as [c|].
  - rewrite report_progress_eq, get_cached_metrics_with_reported.
    destruct (get_cached_metrics config w) as [[payload|e] w1];
      simpl in Hget; [|discriminate].
    injection Hget as ->. simpl. rewrite select_catalog. simpl.
    fold (matching prefix names).
    rewrite ?slice_map, ?length_map. reflexivity.
  - simpl.
    destruct (get_cached_metrics config w) as [[payload|e] w1];
      simpl in Hget; [|discriminate].
    injection Hget as ->. simpl. rewrite select_catalog. simpl.
    fold (matching prefix names).
    rewrite ?slice_map, ?length_map. reflexivity.
Qed.

End Listing.

Lemma paginated_counts (names : list string) (limit : option Z) (offset : Z) :
  0 <= offset -> valid_limit limit ->
  let r := paginated names limit offset in
  returned_count r = page_size (total_count r) offset limit
  /\ has_more r = (offset + returned_count r <? total_count r).
Proof.
  intros Hoff Hlim. unfold paginated. simpl.
  rewrite slice_page_length by assumption.
  split; [reflexivity|].
  apply page_has_more; [lia|assumption|assumption].
Qed.

(** C1.  For every catalog, every [offset >= 0] and every limit that is
    absent or not negative, the result of [list_metrics] (whatever the
    optional filter) and of [search_metrics] has
    [returned_count = min(max(total_count - offset, 0), limit-or-infinity)]
    and [has_more = (offset + returned_count < total_count)], where
    [total_count] is the number of names left by the filter. *)
Theorem pagination_counts (config : PrometheusConfig) (w : world)
    (names : list string) (limit : option Z) (offset : Z) :
  0 <= offset -> valid_limit limit ->
  (forall filter_pattern ctx,
     fst (make_prometheus_request config names_endpoint None w)
     = Return (catalog names) ->
     exists r,
       fst (list_metrics config limit offset filter_pattern ctx w) = Return r
       /\ total_count r = Z.of_nat (length (remaining filter_pattern names))
       /\ returned_count r = page_size (total_count r) offset limit
       /\ has_more r = (offset + returned_count r <? total_count r))
  /\ (forall prefix ctx,
        fst (get_cached_metrics config w) = Return (catalog names) ->
        exists r,
          fst (search_metrics config prefix limit offset ctx w) = Return r
          /\ total_count r = Z.of_nat (length (matching prefix names))
          /\ returned_count r = page_size (total_count r) offset limit
          /\ has_more r = (offset + returned_count r <? total_count r)).
Proof.
  intros Hoff Hlim. split.
  - intros filter_pattern ctx Hfetch.
    exists (paginated (remaining filter_pattern names) limit offset).
    split; [now apply list_metrics_catalog|].
    split; [reflexivity|].
    now apply paginated_counts.
  - intros prefix ctx Hget.
    exists (paginated (matching prefix names) limit offset).
    split; [now apply search_metrics_catalog|].
    split; [reflexivity|].
    now apply paginated_counts.
Qed.

(** Of the four names, two contain [http]; the page of two names from offset
    one holds the second of them and nothing follows it. *)
Lemma pagination_counts_witness :
  (exists r,
     fst (list_metrics plain_config (Some 2) 1 (Some "HTTP") None catalog_world) = Return r
     /\ total_count r = 2 /\ returned_count r = 1 /\ has_more r = false)
  /\ (exists r,
        fst (search_metrics plain_config "http" (Some 2) 1 (Some Reporter) catalog_world)
        = Return r
        /\ total_count r = 2 /\ returned_count r = 1 /\ has_more r = false).
Proof.
  assert (Hoff : 0 <= 1) by lia.
  assert (Hlim : valid_limit (Some 2)) by (simpl; lia).
  destruct (pagination_counts plain_config catalog_world some_names (Some 2) 1 Hoff Hlim)
    as [Hlist Hsearch].
  split.
  - destruct (Hlist (Some "HTTP") None eq_refl) as [r [Hr [Htotal [Hcount Hmore]]]].
    exists r. rewrite Hmore, Hcount, Htotal.
    split; [exact Hr|]. split; [reflexivity|]. split; reflexivity.
  - destruct (Hsearch "http" (Some Reporter) eq_refl) as [r [Hr [Htotal [Hcount Hmore]]]].
    exists r. rewrite Hmore, Hcount, Htotal.
    split; [exact Hr|]. split; [reflexivity|]. split; reflexivity.
Defined.

Lemma slice_whole {A : Type} (l : list A) :
  slice l 0 (Z.of_nat (length l)) = l.
Proof.
  unfold slice, clamp_index.
  destruct (Z.ltb_spec 0 0); [lia|].
  destruct (Z.ltb_spec (Z.of_nat (length l)) 0); [lia|].
  rewrite Z.min_id, Z.min_l by lia.
  change (Z.to_nat 0) with 0%nat. rewrite Z.sub_0_r, Nat2Z.id.
  change (skipn 0 l) with l. apply firstn_all.
Qed.

Lemma slice_window {A : Type} (l : list A) (offset count : Z) :
  0 <= offset -> 0 <= count ->
  slice l offset (offset + count)
  = firstn (Z.to_nat count) (skipn (Z.to_nat offset) l).
Proof.
  intros Hoff Hcount. unfold slice, clamp_index.
  destruct (Z.ltb_spec offset 0); [lia|].
  destruct (Z.ltb_spec (offset + count) 0); [lia|].
  destruct (Z.le_gt_cases (Z.of_nat (length l)) offset) as [Hpast|Hin].
  - rewrite !skipn_all2 by lia. now rewrite !firstn_nil.
  - rewrite (Z.min_l offset) by lia.
    destruct (Z.le_gt_cases (offset + count) (Z.of_nat (length l))) as [Hfit|Hover].
    + rewrite Z.min_l by lia. f_equal. lia.
    + rewrite Z.min_r by lia.
      rewrite !firstn_all2; [reflexivity| |]; rewrite length_skipn; lia.
Qed.

Lemma slice_tail {A : Type} (l : list A) (offset : Z) :
  0 <= offset ->
  slice l offset (Z.of_nat (length l))
  = firstn (length l) (skipn (Z.to_nat offset) l).
Proof.
  intros Hoff.
  replace (Z.of_nat (length l))
    with (offset + (Z.of_nat (length l) - offset)) at 1 by lia.
  destruct (Z.le_gt_cases (Z.of_nat (length l)) offset) as [Hpast|Hin].
  - unfold slice, clamp_index.
    destruct (Z.ltb_spec offset 0); [lia|].
    destruct (Z.ltb_spec (offset + (Z.of_nat (length l) - offset)) 0); [lia|].
    rewrite !skipn_all2 by lia. now rewrite !firstn_nil.
  - rewrite slice_window by lia.
    rewrite !firstn_all2; [reflexivity| |]; rewrite length_skipn; lia.
Qed.

(** The page of a catalog, spelled with [firstn] and [skipn]. *)
Lemma paginated_window (names : list string) (limit : option Z) (offset : Z) :
  0 <= offset -> valid_limit limit ->
  paginated names limit offset
  = let shown :=
      firstn (match limit with
              | Some l => Z.to_nat l
              | None => length names
              end) (skipn (Z.to_nat offset) names) in
    {| metrics := JArr (map JStr shown);
       total_count := Z.of_nat (length names);
       returned_count := Z.of_nat (length shown);
       offset := offset;
       has_more := offset + Z.of_nat (length shown) <? Z.of_nat (length names) |}.
Proof.
  intros Hoff Hlim.
  destruct (paginated_counts names limit offset Hoff Hlim) as [_ Hmore].
  unfold paginated, catalog in *. simpl in *.
  assert (Hslice :
    slice names offset
      (match limit with
       | Some l => offset + l
       | None => Z.of_nat (length names)
       end)
    = firstn (match limit with
              | Some l => Z.to_nat l
              | None => length names
              end) (skipn (Z.to_nat offset) names)).
  { destruct limit as [l|]; simpl in Hlim.
    - now apply slice_window.
    - now apply slice_tail. }
  rewrite Hslice in *. now rewrite Hmore.
Qed.

(** With no limit and offset zero the page is the catalog. *)
Lemma paginated_whole (names : list string) :
  paginated names None 0
  = {| metrics := JArr (map JStr names);
       total_count := Z.of_nat (length names);
       returned_count := Z.of_nat (length names);
       offset := 0; has_more := false |}.
Proof.
  unfold paginated, catalog. rewrite slice_whole, Z.ltb_irrefl. reflexivity.
Qed.

(** C10.  An empty filter selects the whole catalog.  [list_metrics] called
    with the filter [""] does in every world what it does with no filter.
    On a catalog, [list_metrics] with the filter [""] and [search_metrics]
    with the prefix [""] return a result, not an error, for every limit and
    offset; with no limit and offset zero that result holds every name of
    the catalog, in order, counts them all and has nothing after it; and
    for an offset that is not negative and a limit that is absent or not
    negative it holds the names of the catalog from [offset] on, at most
    [limit] of them, out of a total that is the size of the catalog. *)
Theorem empty_filter_selects_all (config : PrometheusConfig) (w : world)
    (limit : option Z) (offset : Z) (ctx : option Context) :
  list_metrics config limit offset (Some "") ctx w
  = list_metrics config limit offset None ctx w
  /\ (forall names,
        fst (make_prometheus_request config names_endpoint None w)
        = Return (JArr (map JStr names)) ->
        fst (list_metrics config limit offset (Some "") ctx w)
        = Return (paginated names limit offset)
        /\ fst (list_metrics config None 0 (Some "") ctx w)
           = Return {| metrics := JArr (map JStr names);
                       total_count := Z.of_nat (length names);
                       returned_count := Z.of_nat (length names);
                       offset := 0; has_more := false |}
        /\ (0 <= offset -> valid_limit limit ->
            let shown :=
              firstn (match limit with
                      | Some l => Z.to_nat l
                      | None => length names
                      end) (skipn (Z.to_nat offset) names) in
            fst (list_metrics config limit offset (Some "") ctx w)
            = Return {| metrics := JArr (map JStr shown);
                        total_count := Z.of_nat (length names);
                        returned_count := Z.of_nat (length shown);
                        offset := offset;
                        has_more :=
                          offset + Z.of_nat (length shown)
                          <? Z.of_nat (length names) |}))
  /\ (forall names,
        fst (get_cached_metrics config w) = Return (JArr (map JStr names)) ->
        fst (search_metrics config "" limit offset ctx w)
        = Return (paginated names limit offset)
        /\ fst (search_metrics config "" None 0 ctx w)
           = Return {| metrics := JArr (map JStr names);
                       total_count := Z.of_nat (length names);
                       returned_count := Z.of_nat (length names);
                       offset := 0; has_more := false |}
        /\ (0 <= offset -> valid_limit limit ->
            let shown :=
              firstn (match limit with
                      | Some l => Z.to_nat l
                      | None => length names
                      end) (skipn (Z.to_nat offset) names) in
            fst (search_metrics config "" limit offset ctx w)
            = Return {| metrics := JArr (map JStr shown);
                        total_count := Z.of_nat (length names);
                        returned_count := Z.of_nat (length shown);
                        offset := offset;
                        has_more :=
                          offset + Z.of_nat (length shown)
                          <? Z.of_nat (length names) |})).
Proof.
  split; [reflexivity|]. split.
  - intros names Hfetch. fold (catalog names) in Hfetch.
    assert (Hpage : forall l o,
              fst (list_metrics config l o (Some "") ctx w)
              = Return (paginated names l o)).
    { intros l o.
      now rewrite (list_metrics_catalog config l o (Some "") ctx w names Hfetch). }
    split; [apply Hpage|]. split.
    + rewrite Hpage. now rewrite paginated_whole.
    + intros Hoff Hlim shown. rewrite Hpage.
      now rewrite (paginated_window names limit offset Hoff Hlim).
  - intros names Hget. fold (catalog names) in Hget.
    assert (Hpage : forall l o,
              fst (search_metrics config "" l o ctx w)
              = Return (paginated names l o)).
    { intros l o.
      rewrite (search_metrics_catalog config "" l o ctx w names Hget).
      now rewrite matching_empty. }
    split; [apply Hpage|]. split.
    + rewrite Hpage. now rewrite paginated_whole.
    + intros Hoff Hlim shown. rewrite Hpage.
      now rewrite (paginated_window names limit offset Hoff Hlim).
Qed.

(** With no limit and offset zero, all four names come back, from the
    listing and from the search; the page of two names from offset one holds
    the second and the third name, and one name follows it. *)
Lemma empty_filter_selects_all_witness :
  fst (list_metrics plain_config None 0 (Some "") None catalog_world)
  = Return {| metrics := JArr [JStr "up"; JStr "http_requests_total";
                               JStr "HTTP_errors"; JStr "go_goroutines"];
              total_count := 4; returned_count := 4; offset := 0;
              has_more := false |}
  /\ fst (search_metrics plain_config "" None 0 None catalog_world)
     = Return {| metrics := JArr [JStr "up"; JStr "http_requests_total";
                                  JStr "HTTP_errors"; JStr "go_goroutines"];
                 total_count := 4; returned_count := 4; offset := 0;
                 has_more := false |}
  /\ fst (search_metrics plain_config "" (Some 2) 1 None catalog_world)
     = Return {| metrics := JArr [JStr "http_requests_total"; JStr "HTTP_errors"];
                 total_count := 4; returned_count := 2; offset := 1;
                 has_more := true |}.
Proof.
  assert (Hoff : 0 <= 1) by lia.
  assert (Hlim : valid_limit (Some 2)) by (simpl; lia).
  destruct (empty_filter_selects_all plain_config catalog_world (Some 2) 1 None)
    as [_ [Hlist Hsearch]].
  destruct (Hlist some_names eq_refl) as [_ [Hall _]].
  destruct (Hsearch some_names eq_refl) as [_ [Hall' Hwindow]].
  split; [exact Hall|]. split; [exact Hall'|exact (Hwindow Hoff Hlim)].
Defined.

(** ** Authentication *)

Section Authentication.

Variable config : PrometheusConfig.

Lemma outbound_bearer endpoint params :
  truthy (token config) = true ->
  req_auth (outbound config endpoint params) = None
  /\ req_headers (outbound config endpoint params) !! "Authorization"
     = match custom_authorization config with
       | Some v => Some v
       | None => Some ("Bearer " ++ text (token config))
       end.
Proof.
  intros Htoken. unfold outbound, get_prometheus_auth, custom_authorization.
  rewrite Htoken. simpl. split; [reflexivity|].
  set (bearer := "Bearer " ++ text (token config)).
  assert (Hbase : forall h : gmap string string,
            h = ({[ "Authorization" := bearer ]} ∪ ∅) ->
            (if truthy (org_id config)
             then <[ "X-Scope-OrgID" := text (org_id config) ]> h else h)
              !! "Authorization" = Some bearer).
  { intros h ->. destruct (truthy (org_id config)).
    - rewrite lookup_insert_ne by discriminate.
      rewrite lookup_union_l by apply lookup_empty. apply lookup_singleton_eq.
    - rewrite lookup_union_l by apply lookup_empty. apply lookup_singleton_eq. }
  specialize (Hbase _ eq_refl).
  destruct (custom_headers config) as [custom|]; [|exact Hbase].
  destruct (decide (custom = ∅)) as [->|Hne].
  - rewrite lookup_empty. exact Hbase.
  - destruct (custom !! "Authorization") as [v|] eqn:Hv.
    + now apply lookup_union_Some_l.
    + rewrite lookup_union_r by exact Hv. exact Hbase.
Qed.

End Authentication.

(** C3, as amended.  With a token and a user with a password all
    configured, every request that a gateway call sends passes no basic
    credential to [requests.get], and its [Authorization] header is
    [Bearer <token>] unless the custom headers have an [Authorization] entry
    of their own, which is merged last and replaces it. *)
Theorem bearer_takes_precedence (config : PrometheusConfig) (endpoint : string)
    (params : option (list (string * string))) (w : world) :
  both_credentials config ->
  exists built : list request,
    sent (snd (make_prometheus_request config endpoint params w))
    = (sent w ++ built)%list
    /\ (Str.truthy (url config) = true -> length built = 1%nat)
    /\ forall r, In r built ->
         req_auth r = None
         /\ (custom_authorization config = None ->
             req_headers r !! "Authorization"
             = Some ("Bearer " ++ text (token config)))
         /\ (forall v, custom_authorization config = Some v ->
             req_headers r !! "Authorization" = Some v).
Proof.
  intros [Htoken _]. rewrite make_prometheus_request_eq.
  destruct (Str.truthy (url config)).
  - exists [outbound config endpoint params]. simpl.
    split; [reflexivity|]. split; [reflexivity|].
    intros r [<-|[]].
    destruct (outbound_bearer config endpoint params Htoken) as [Hauth Hheader].
    split; [exact Hauth|]. rewrite Hheader.
    split; [now intros ->|now intros v ->].
  - exists []. simpl. rewrite app_nil_r.
    split; [reflexivity|]. split; [discriminate|]. intros r [].
Qed.

(** With a custom header of another name, the request of an instant query
    carries the bearer header and no basic credential. *)
Lemma bearer_takes_precedence_witness :
  map (fun r => (req_auth r, req_headers r !! "Authorization"))
    (sent (snd (make_prometheus_request token_config "query" (Some [("query", "up")])
                  (world_at 12000%Q empty_cache (always NoReply)))))
  = [(None, Some "Bearer abc123")].
Proof.
  assert (Hboth : both_credentials token_config) by (repeat split).
  destruct (bearer_takes_precedence token_config "query" (Some [("query", "up")])
              (world_at 12000%Q empty_cache (always NoReply)) Hboth)
    as [built [Hsent [Hone Hall]]].
  rewrite Hsent. simpl.
  destruct built as [|r [|r' rest]]; try (specialize (Hone eq_refl); discriminate).
  destruct (Hall r (or_introl eq_refl)) as [Hauth [Hbearer _]].
  simpl. rewrite Hauth, (Hbearer eq_refl). reflexivity.
Defined.

(** C3, as stated, fails: token, user and password are all configured, and
    the request carries the custom [Authorization] header, not the bearer
    one. *)
Lemma bearer_overridden_by_custom_header :
  both_credentials overriding_config
  /\ map (fun r => (req_auth r, req_headers r !! "Authorization"))
       (sent (snd (make_prometheus_request overriding_config "query"
                     (Some [("query", "up")])
                     (world_at 12000%Q empty_cache (always NoReply)))))
     = [(None, Some "Basic YWRtaW46c2VjcmV0")]
  /\ Some "Basic YWRtaW46c2VjcmV0" <> Some ("Bearer " ++ text (token overriding_config)).
Proof.
  split; [repeat split|]. split; [vm_compute; reflexivity|discriminate].
Qed.

(** ** Failures reported by the backend *)

Lemma contains_self (s : string) : Str.contains s s = true.
Proof.
  assert (H : Str.starts_with s s = true).
  { induction s as [|c s IH]; simpl; [reflexivity|].
    now rewrite Ascii.eqb_refl, IH. }
  destruct s; simpl in *; [reflexivity|]. now rewrite H.
Qed.

Lemma contains_append (p s : string) : Str.contains s (p ++ s) = true.
Proof.
  induction p as [|c p IH]; simpl.
  - apply contains_self.
  - rewrite IH. apply orb_true_r.
Qed.

Lemma append_empty (s : string) : s ++ "" = s.
Proof.
  induction s as [|c s IH]; [reflexivity|].
  change (String c s ++ "") with (String c (s ++ "")). now rewrite IH.
Qed.

Section BackendFailure.

Variable config : PrometheusConfig.

(** A failure of the gateway is the failure of [execute_query]. *)
Lemma execute_query_propagates query time (w : world) (e : exn) :
  fst (make_prometheus_request config "query"
         (Some (if truthy time then [("query", query); ("time", text time)]
                else [("query", query)])) w) = Raise e ->
  fst (execute_query config query time w) = Raise e.
Proof.
  unfold execute_query, bind. destruct (truthy time); simpl;
    match goal with
    | |- context [make_prometheus_request ?c ?ep ?ps ?w0] =>
        destruct (make_prometheus_request c ep ps w0) as [[payload|e'] w1]
    end; simpl; congruence.
Qed.

Lemma gateway_backend_failure endpoint params (w : world) code fields st :
  Str.truthy (url config) = true ->
  (forall r, backend w r = Response code (Some (JObj fields))) ->
  200 <= code < 300 ->
  lookup_field "status" fields = Some st ->
  eq_str st "success" = false ->
  fst (make_prometheus_request config endpoint params w) = Raise (backend_failure fields).
Proof.
  intros Hurl Hreply Hcode Hstatus Hne.
  rewrite make_prometheus_request_eq, Hurl, Hreply. simpl.
  destruct (Z.leb_spec 400 code) as [?|_]; [lia|]. simpl.
  rewrite Hstatus, Hne. reflexivity.
Qed.

End BackendFailure.

(** C5, as amended.  For every reply with a 2xx status whose body is a JSON
    object with a [status] field other than [success], the gateway raises a
    [ValueError] whose message is [Prometheus API error: ] followed by the
    [error] field of the body, or by [Unknown error] when the body has no
    such field; when the field is a string the message contains it.  The
    failure reaches the caller of [execute_query] as it is. *)
Theorem backend_error_is_raised (config : PrometheusConfig) (w : world)
    (code : Z) (fields : list (string * json)) (st : json) :
  Str.truthy (url config) = true ->
  (forall r, backend w r = Response code (Some (JObj fields))) ->
  200 <= code < 300 ->
  lookup_field "status" fields = Some st ->
  eq_str st "success" = false ->
  (forall endpoint params,
     fst (make_prometheus_request config endpoint params w)
     = Raise (backend_failure fields))
  /\ (forall query time,
        fst (execute_query config query time w) = Raise (backend_failure fields))
  /\ (forall s, lookup_field "error" fields = Some (JStr s) ->
        failure_text (backend_failure fields) = Some ("Prometheus API error: " ++ s)
        /\ Str.contains s ("Prometheus API error: " ++ s) = true)
  /\ (lookup_field "error" fields = None ->
      failure_text (backend_failure fields) = Some "Prometheus API error: Unknown error").
Proof.
  intros Hurl Hreply Hcode Hstatus Hne.
  assert (Hgate : forall endpoint params,
            fst (make_prometheus_request config endpoint params w)
            = Raise (backend_failure fields)).
  { intros endpoint params.
    exact (gateway_backend_failure config endpoint params w code fields st
             Hurl Hreply Hcode Hstatus Hne). }
  split; [exact Hgate|]. split.
  - intros query time. apply execute_query_propagates. apply Hgate.
  - split.
    + intros s Herror. unfold backend_failure, reported_error. rewrite Herror. simpl.
      rewrite append_empty. split; [reflexivity|].
      apply (contains_append "Prometheus API error: " s).
    + intros Herror. unfold backend_failure, reported_error. now rewrite Herror.
Qed.

(** The scenario of the specification: the body
    [{"status": "error", "error": "bad query"}] on an instant query. *)
Lemma backend_error_is_raised_witness :
  fst (execute_query plain_config "up" None
         (world_at 12000%Q empty_cache
            (erring [("status", JStr "error"); ("error", JStr "bad query")])))
  = Raise (ValueError [Text "Prometheus API error: "; Fmt (JStr "bad query")])
  /\ failure_text (ValueError [Text "Prometheus API error: "; Fmt (JStr "bad query")])
     = Some "Prometheus API error: bad query"
  /\ Str.contains "bad query" "Prometheus API error: bad query" = true.
Proof.
  assert (Hcode : 200 <= 200 < 300) by lia.
  destruct (backend_error_is_raised plain_config
              (world_at 12000%Q empty_cache
                 (erring [("status", JStr "error"); ("error", JStr "bad query")]))
              200 [("status", JStr "error"); ("error", JStr "bad query")]
              (JStr "error") eq_refl (fun _ => eq_refl) Hcode eq_refl eq_refl)
    as [_ [Hquery [Hstring _]]].
  split; [exact (Hquery "up" None)|].
  exact (Hstring "bad query" eq_refl).
Defined.

(** C5, as stated, fails on a body with no [error] field: the message raised
    for [{"status": "error"}] ends in [Unknown error], and the word
    [unknown] does not occur in it. *)
Lemma absent_error_is_not_unknown :
  fst (make_prometheus_request plain_config "query" (Some [("query", "up")])
         (world_at 12000%Q empty_cache (erring [("status", JStr "error")])))
  = Raise (ValueError [Text "Prometheus API error: "; Fmt (JStr "Unknown error")])
  /\ failure_text (ValueError [Text "Prometheus API error: "; Fmt (JStr "Unknown error")])
     = Some "Prometheus API error: Unknown error"
  /\ JStr "Unknown error" <> JStr "unknown"
  /\ Str.contains "unknown" "Prometheus API error: Unknown error" = false.
Proof.
  split; [vm_compute; reflexivity|]. split; [reflexivity|].
  split; [discriminate|reflexivity].
Qed.

(** ** Health *)

(** C6.  [health_check] never raises.  The status it returns is [unhealthy]
    when no backend URL is configured; with a URL configured it is [healthy]
    when the probe, an instant query for [up] through the gateway, succeeds,
    and [degraded] when the probe fails. *)
Theorem health_check_status (config : PrometheusConfig) (w : world) :
  exists h,
    fst (health_check config w) = Return h
    /\ (Str.truthy (url config) = false -> status h = "unhealthy")
    /\ (Str.truthy (url config) = true ->
        (forall payload,
           fst (make_prometheus_request config "query" (probe_params w) w)
           = Return payload -> status h = "healthy")
        /\ (forall e,
              fst (make_prometheus_request config "query" (probe_params w) w)
              = Raise e -> status h = "degraded")).
Proof.
  unfold health_check, try_except, bind, utcnow_isoformat, time_time, ret, probe_params.
  simpl. destruct (Str.truthy (url config)) eqn:Hurl; simpl.
  - destruct (make_prometheus_request config "query"
                (Some [("query", "up"); ("time", pretty (int_of (now w)))]) w)
      as [[payload|e] w1]; simpl; eexists; (split; [reflexivity|]);
      (split; [discriminate|]); intros _; split; intros ? Heq;
      try discriminate; reflexivity.
  - eexists. split; [reflexivity|]. split; [reflexivity|discriminate].
Qed.

(** No URL: unhealthy.  A backend that is down: degraded.  A backend that
    answers the probe: healthy. *)
Lemma health_check_status_witness :
  (exists h, fst (health_check unconfigured
                    (world_at 12000%Q empty_cache (always NoReply))) = Return h
             /\ status h = "unhealthy")
  /\ (exists h, fst (health_check plain_config
                       (world_at 12000%Q empty_cache (always NoReply))) = Return h
                /\ status h = "degraded")
  /\ (exists h, fst (health_check plain_config
                       (world_at 12000%Q empty_cache
                          (always (success (JObj [("resultType", JStr "vector");
                                                   ("result", JArr [])])))))
                = Return h
                /\ status h = "healthy").
Proof.
  split; [|split].
  - destruct (health_check_status unconfigured
                (world_at 12000%Q empty_cache (always NoReply)))
      as [h [Hh [Hno _]]].
    exists h. split; [exact Hh | exact (Hno eq_refl)].
  - destruct (health_check_status plain_config
                (world_at 12000%Q empty_cache (always NoReply)))
      as [h [Hh [_ Hurl]]].
    exists h. split; [exact Hh|].
    exact (proj2 (Hurl eq_refl) RequestException eq_refl).
  - destruct (health_check_status plain_config
                (world_at 12000%Q empty_cache
                   (always (success (JObj [("resultType", JStr "vector");
                                            ("result", JArr [])])))))
      as [h [Hh [_ Hurl]]].
    exists h. split; [exact Hh|].
    exact (proj1 (Hurl eq_refl) _ eq_refl).
Defined.

(** ** Metadata *)

Lemma no_string_among_dicts (k : string) (items : list json) :
  forallb is_dict items = true -> existsb (fun x => eq_str x k) items = false.
Proof.
  induction items as [|x items IH]; simpl; [reflexivity|].
  intros H. apply andb_true_iff in H as [Hx Hrest].
  rewrite (IH Hrest). destruct x; simpl in *; try discriminate; reflexivity.
Qed.

(** C7.  On a payload of metadata whose designated value is a list or a
    dictionary, [get_metric_metadata] returns the [metadata] entry of the
    payload, else its [data] entry, else the payload itself, a lone
    dictionary wrapped into a list of one element.  In particular the reply
    [{"status": "success", "data": {"metadata": [{"type": "gauge"}]}}]
    yields [[{"type": "gauge"}]]. *)
Theorem metadata_is_normalized (config : PrometheusConfig) (w : world) (metric : string) :
  (forall payload,
     fst (make_prometheus_request config ("metadata?metric=" ++ metric) None w)
     = Return payload ->
     metadata_payload payload = true ->
     list_or_dict (designated payload) = true ->
     fst (get_metric_metadata config metric w) = Return (normalized payload))
  /\ (Str.truthy (url config) = true ->
      (forall r, backend w r = gauge_reply) ->
      fst (get_metric_metadata config metric w)
      = Return (JArr [JObj [("type", JStr "gauge")]])).
Proof.
  assert (Hmain : forall payload,
     fst (make_prometheus_request config ("metadata?metric=" ++ metric) None w)
     = Return payload ->
     metadata_payload payload = true ->
     list_or_dict (designated payload) = true ->
     fst (get_metric_metadata config metric w) = Return (normalized payload)).
  { intros payload Hfetch Hshape Hvalue.
    unfold get_metric_metadata, bind, lift, ret.
    destruct (make_prometheus_request config ("metadata?metric=" ++ metric) None w)
      as [[p|e] w1]; simpl in Hfetch; [|discriminate].
    injection Hfetch as ->. unfold normalized.
    destruct payload as [| | | |items|fields]; try discriminate; simpl in *.
    - rewrite !(no_string_among_dicts _ _ Hshape). reflexivity.
    - destruct (lookup_field "metadata" fields) as [v|]; simpl.
      + destruct v; try discriminate; reflexivity.
      + destruct (lookup_field "data" fields) as [v|]; simpl.
        * destruct v; try discriminate; reflexivity.
        * reflexivity. }
  split; [exact Hmain|].
  intros Hurl Hreply.
  apply (Hmain (JObj [("metadata", JArr [JObj [("type", JStr "gauge")]])]));
    [|reflexivity|reflexivity].
  rewrite make_prometheus_request_eq, Hurl, Hreply. reflexivity.
Qed.

(** The three shapes, each on a small payload, and the scenario. *)
Lemma metadata_is_normalized_witness :
  fst (get_metric_metadata plain_config "up"
         (world_at 12000%Q empty_cache
            (always (success (JObj [("data", JObj [("type", JStr "counter")])])))))
  = Return (JArr [JObj [("type", JStr "counter")]])
  /\ fst (get_metric_metadata plain_config "up"
            (world_at 12000%Q empty_cache
               (always (success (JArr [JObj [("type", JStr "gauge")]])))))
     = Return (JArr [JObj [("type", JStr "gauge")]])
  /\ fst (get_metric_metadata plain_config "up"
            (world_at 12000%Q empty_cache (always gauge_reply)))
     = Return (JArr [JObj [("type", JStr "gauge")]]).
Proof.
  split; [|split].
  - exact (proj1 (metadata_is_normalized plain_config
             (world_at 12000%Q empty_cache
                (always (success (JObj [("data", JObj [("type", JStr "counter")])]))))
             "up") _ eq_refl eq_refl eq_refl).
  - exact (proj1 (metadata_is_normalized plain_config
             (world_at 12000%Q empty_cache
                (always (success (JArr [JObj [("type", JStr "gauge")]]))))
             "up") _ eq_refl eq_refl eq_refl).
  - exact (proj2 (metadata_is_normalized plain_config
             (world_at 12000%Q empty_cache (always gauge_reply)) "up")
             eq_refl (fun _ => eq_refl)).
Defined.

(** ** Progress of a range query *)

Section RangeQuery.

Variable config : PrometheusConfig.
Variables query start end_ step : string.

(** What the handler does with a reporter, in terms of what it does
    without one: the same outcome, and a world that differs in the ticks
    only. *)
Lemma execute_range_query_reporter (w : world) :
  exists ticks,
    execute_range_query config query start end_ step (Some Reporter) w
    = (fst (execute_range_query config query start end_ step None w),
       with_reported (reported w ++ ticks)
         (snd (execute_range_query config query start end_ step None w)))
    /\ (is_return (fst (execute_range_query config query start end_ step None w)) = true ->
        ticks = range_ticks).
Proof.
  unfold execute_range_query, report_if, bind, lift, ret.
  rewrite report_progress_eq, gateway_with_reported. simpl.
  destruct (make_prometheus_request config "query_range"
              (Some [("query", query); ("start", start); ("end", end_); ("step", step)]) w)
    as [[payload|e] w1]; simpl.
  - destruct (getitem payload "resultType") as [rt|e]; simpl.
    + destruct (getitem payload "result") as [vs|e]; simpl.
      * exists range_ticks. unfold with_reported, range_ticks. simpl.
        rewrite <- !app_assoc. simpl. split; [reflexivity|reflexivity].
      * eexists. unfold with_reported. simpl. rewrite <- !app_assoc. simpl.
        split; [reflexivity|discriminate].
    + eexists. unfold with_reported. simpl. rewrite <- !app_assoc. simpl.
      split; [reflexivity|discriminate].
  - eexists. unfold with_reported. simpl. split; [reflexivity|discriminate].
Qed.

(** Without a reporter no tick is reported. *)
Lemma execute_range_query_silent (w : world) :
  reported (snd (execute_range_query config query start end_ step None w)) = reported w.
Proof.
  unfold execute_range_query, report_if, bind, lift, ret. simpl.
  pose proof (gateway_preserves config "query_range"
                (Some [("query", query); ("start", start); ("end", end_); ("step", step)]) w)
    as Hkeep.
  destruct (make_prometheus_request config "query_range"
              (Some [("query", query); ("start", start); ("end", end_); ("step", step)]) w)
    as [[payload|e] w1]; simpl in *; [|tauto].
  destruct (getitem payload "resultType") as [rt|e]; simpl; [|tauto].
  destruct (getitem payload "result") as [vs|e]; simpl; tauto.
Qed.

(** A payload with both fields makes the handler return. *)
Lemma execute_range_query_returns (w : world) payload rt vs :
  fst (make_prometheus_request config "query_range"
         (range_params query start end_ step) w) = Return payload ->
  getitem payload "resultType" = Return rt ->
  getitem payload "result" = Return vs ->
  is_return (fst (execute_range_query config query start end_ step None w)) = true.
Proof.
  unfold execute_range_query, report_if, bind, lift, ret, range_params. simpl.
  intros Hfetch Hrt Hvs.
  destruct (make_prometheus_request config "query_range"
              (Some [("query", query); ("start", start); ("end", end_); ("step", step)]) w)
    as [[p|e] w1]; simpl in *; [|discriminate].
  injection Hfetch as ->. rewrite Hrt. simpl. rewrite Hvs. reflexivity.
Qed.

End RangeQuery.

(** C8.  A range query with a reporter whose gateway call delivers a payload
    with [resultType] and [result] reports exactly three ticks, of progress
    0, 50 and 100 in this order, and returns; so does every call with a
    reporter that returns.  Without a reporter no tick is reported, and the
    outcome, the requests sent and the cache are those of the call with a
    reporter. *)
Theorem range_query_progress (config : PrometheusConfig)
    (query start end_ step : string) (w : world) :
  let silent := execute_range_query config query start end_ step None w in
  let loud := execute_range_query config query start end_ step (Some Reporter) w in
  (forall payload rt vs,
     fst (make_prometheus_request config "query_range"
            (range_params query start end_ step) w) = Return payload ->
     getitem payload "resultType" = Return rt ->
     getitem payload "result" = Return vs ->
     (exists r, fst loud = Return r)
     /\ reported (snd loud) = (reported w ++ range_ticks)%list)
  /\ (forall r, fst loud = Return r ->
        reported (snd loud) = (reported w ++ range_ticks)%list)
  /\ map tick_progress range_ticks = [0; 50; 100]
  /\ reported (snd silent) = reported w
  /\ fst silent = fst loud
  /\ sent (snd silent) = sent (snd loud)
  /\ cache (snd silent) = cache (snd loud).
Proof.
  intros silent loud.
  destruct (execute_range_query_reporter config query start end_ step w)
    as [ticks [Hloud Hticks]].
  fold loud in Hloud. fold silent in Hloud, Hticks.
  assert (Hreturns : forall r, fst loud = Return r ->
            reported (snd loud) = (reported w ++ range_ticks)%list).
  { intros r Hr. rewrite Hloud in Hr |- *. simpl in *.
    rewrite Hticks; [reflexivity|]. now rewrite Hr. }
  split; [|split; [exact Hreturns|]].
  - intros payload rt vs Hfetch Hrt Hvs.
    pose proof (execute_range_query_returns config query start end_ step w
                  payload rt vs Hfetch Hrt Hvs) as Hret.
    fold silent in Hret.
    assert (Hr : exists r, fst loud = Return r).
    { rewrite Hloud. simpl. destruct (fst silent) as [r|e]; [eauto|discriminate]. }
    split; [exact Hr|]. destruct Hr as [r Hr]. exact (Hreturns r Hr).
  - split; [reflexivity|].
    split; [apply execute_range_query_silent|].
    rewrite Hloud. simpl. repeat split; reflexivity.
Qed.

(** A range query answered with an empty matrix: three ticks with a
    reporter, and the same result without one. *)
Lemma range_query_progress_witness :
  map tick_progress
    (reported (snd (execute_range_query plain_config "up" "0" "60" "15s"
                      (Some Reporter) matrix_world)))
  = [0; 50; 100]
  /\ fst (execute_range_query plain_config "up" "0" "60" "15s" None matrix_world)
     = fst (execute_range_query plain_config "up" "0" "60" "15s"
              (Some Reporter) matrix_world).
Proof.
  destruct (range_query_progress plain_config "up" "0" "60" "15s" matrix_world)
    as [Hthree [_ [_ [_ [Hsame _]]]]].
  split; [|exact Hsame].
  destruct (Hthree (JObj [("resultType", JStr "matrix"); ("result", JArr [])])
              (JStr "matrix") (JArr []) eq_refl eq_refl eq_refl) as [_ Hticks].
  rewrite Hticks. reflexivity.
Defined.

(** ** At the edges of the claims *)

(** A negative limit is not a valid one: the end of the slice is then counted
    from the end of the list. *)
Example negative_limit_counts_from_the_end :
  fst (list_metrics plain_config (Some (-1)) 0 None None catalog_world)
  = Return {| metrics := catalog ["up"; "http_requests_total"; "HTTP_errors"];
              total_count := 4; returned_count := 3; offset := 0;
              has_more := true |}.
Proof. vm_compute. reflexivity. Qed.

(** A success whose payload has no [resultType] is not a query result: the
    handler raises after its second tick. *)
Example range_query_without_result_type :
  let w := world_at 12000%Q empty_cache (always (success (JObj []))) in
  let loud := execute_range_query plain_config "up" "0" "60" "15s" (Some Reporter) w in
  fst loud = Raise (KeyError "resultType")
  /\ map tick_progress (reported (snd loud)) = [0; 50].
Proof. vm_compute. split; reflexivity. Qed.

(** A success whose payload is [null] is not a catalog: it is stored, the
    logging call that takes its length raises, and the fallback finds no
    snapshot. *)
Example null_payload_is_stored :
  let w := world_at 12000%Q filled_cache (always (success JNull)) in
  fst (get_cached_metrics plain_config w) = Return (JArr [])
  /\ cache (snd (get_cached_metrics plain_config w))
     = {| cache_data := JNull; cache_timestamp := 12000%Q |}.
Proof. vm_compute. split; reflexivity. Qed.

(** A [metadata] entry that is neither a list nor a dictionary has no
    length. *)
Example scalar_metadata_has_no_length :
  fst (get_metric_metadata plain_config "up"
         (world_at 12000%Q empty_cache
            (always (success (JObj [("metadata", JNum 7)])))))
  = Raise TypeError.
Proof. vm_compute. reflexivity. Qed.

(** * Further properties of the code *)

(** ** The gateway: what is sent *)

Lemma rstrip_snoc (c : ascii) (s : string) :
  Str.rstrip c (s ++ String c EmptyString) = Str.rstrip c s.
Proof.
  induction s as [|a s IH].
  - simpl. now rewrite Ascii.eqb_refl.
  - change (String a s ++ String c EmptyString)
      with (String a (s ++ String c EmptyString)).
    simpl. now rewrite IH.
Qed.

Lemma rstrip_no_trailing (c : ascii) (s : string) :
  ends_with c (Str.rstrip c s) = false.
Proof.
  induction s as [|a s IH]; [reflexivity|]. simpl.
  destruct (Str.rstrip c s) as [|b kept] eqn:Hkept.
  - destruct (Ascii.eqb a c) eqn:Hac; simpl; [reflexivity|exact Hac].
  - exact IH.
Qed.

Lemma rstrip_without_trailing (c : ascii) (s : string) :
  ends_with c s = false -> Str.rstrip c s = s.
Proof.
  induction s as [|a s IH]; [reflexivity|]. simpl.
  destruct s as [|b s'].
  - intros ->. reflexivity.
  - intros H. rewrite (IH H). reflexivity.
Qed.

Section GatewayRequests.

Variable config : PrometheusConfig.

(** The headers of the request: what the custom headers say, and for a name
    they do not have, what the gateway sets by itself. *)
Lemma outbound_header endpoint params (k : string) :
  req_headers (outbound config endpoint params) !! k
  = match custom_header config k with
    | Some v => Some v
    | None => own_header config k
    end.
Proof.
  unfold outbound, custom_header, own_header, get_prometheus_auth.
  set (bearer := "Bearer " ++ text (token config)).
  assert (Hown :
    (if truthy (org_id config)
     then <[ "X-Scope-OrgID" := text (org_id config) ]>
            (match (if truthy (token config)
                    then Some (HeaderAuth {[ "Authorization" := bearer ]})
                    else if truthy (username config) && truthy (password config)
                         then Some (HTTPBasicAuth (text (username config))
                                      (text (password config)))
                         else None) with
             | Some (HeaderAuth d) => d ∪ ∅
             | _ => ∅
             end)
     else (match (if truthy (token config)
                  then Some (HeaderAuth {[ "Authorization" := bearer ]})
                  else if truthy (username config) && truthy (password config)
                       then Some (HTTPBasicAuth (text (username config))
                                    (text (password config)))
                       else None) with
           | Some (HeaderAuth d) => d ∪ ∅
           | _ => ∅
           end)) !! k
    = (if String.eqb k "X-Scope-OrgID" && truthy (org_id config)
       then Some (text (org_id config))
       else if String.eqb k "Authorization" && truthy (token config)
            then Some bearer else None)).
  { assert (Hauth : forall h : gmap string string,
      h = (match (if truthy (token config)
                  then Some (HeaderAuth {[ "Authorization" := bearer ]})
                  else if truthy (username config) && truthy (password config)
                       then Some (HTTPBasicAuth (text (username config))
                                    (text (password config)))
                       else None) with
           | Some (HeaderAuth d) => d ∪ ∅
           | _ => ∅
           end) ->
      h !! k = (if String.eqb k "Authorization" && truthy (token config)
                then Some bearer else None)).
    { intros h ->. destruct (truthy (token config)).
      - rewrite lookup_union_l by apply lookup_empty.
        destruct (String.eqb_spec k "Authorization") as [->|Hne]; simpl.
        + apply lookup_singleton_eq.
        + apply lookup_singleton_ne. congruence.
      - rewrite andb_false_r.
        destruct (truthy (username config) && truthy (password config));
          apply lookup_empty. }
    destruct (truthy (org_id config)).
    - destruct (String.eqb_spec k "X-Scope-OrgID") as [->|Hne]; simpl.
      + apply lookup_insert_eq.
      + rewrite lookup_insert_ne by congruence. now apply Hauth.
    - rewrite andb_false_r. now apply Hauth. }
  simpl. destruct (custom_headers config) as [custom|]; [|exact Hown].
  destruct (decide (custom = ∅)) as [->|Hne].
  - rewrite lookup_empty. exact Hown.
  - destruct (custom !! k) as [v|] eqn:Hv.
    + now apply lookup_union_Some_l.
    + rewrite lookup_union_r by exact Hv. exact Hown.
Qed.

End GatewayRequests.

(** X1.  Without a backend URL nothing is ever sent: every gateway call,
    and with it [execute_query], [execute_range_query], [list_metrics],
    [get_metric_metadata] and [get_targets], raises the error of the missing
    configuration, and [search_metrics] and [health_check], which catch it,
    send nothing either. *)
Theorem nothing_sent_without_url (config : PrometheusConfig) (w : world) :
  Str.truthy (url config) = false ->
  (forall endpoint params,
     make_prometheus_request config endpoint params w
     = (Raise configuration_missing, w))
  /\ (forall query time,
        execute_query config query time w = (Raise configuration_missing, w))
  /\ (forall query start end_ step ctx,
        let after := execute_range_query config query start end_ step ctx w in
        fst after = Raise configuration_missing /\ sent (snd after) = sent w)
  /\ (forall limit offset filter_pattern ctx,
        let after := list_metrics config limit offset filter_pattern ctx w in
        fst after = Raise configuration_missing /\ sent (snd after) = sent w)
  /\ (forall metric,
        get_metric_metadata config metric w = (Raise configuration_missing, w))
  /\ get_targets config w = (Raise configuration_missing, w)
  /\ (forall prefix limit offset ctx,
        sent (snd (search_metrics config prefix limit offset ctx w)) = sent w)
  /\ sent (snd (health_check config w)) = sent w.
Proof.
  intros Hurl.
  assert (Hgate : forall endpoint params w0,
            make_prometheus_request config endpoint params w0
            = (Raise configuration_missing, w0)).
  { intros. now rewrite make_prometheus_request_eq, Hurl. }
  split; [intros; apply Hgate|].
  split; [intros; unfold execute_query, bind; now rewrite Hgate|].
  split.
  { intros query start end_ step ctx.
    unfold execute_range_query, report_if, bind.
    destruct ctx; simpl; rewrite Hgate; split; reflexivity. }
  split.
  { intros limit offset filter_pattern ctx.
    unfold list_metrics, report_if, bind.
    destruct ctx; simpl; rewrite Hgate; split; reflexivity. }
  split; [intros; unfold get_metric_metadata, bind; now rewrite Hgate|].
  split; [unfold get_targets, bind; now rewrite Hgate|].
  split.
  { intros. rewrite search_metrics_sent, get_cached_metrics_eq.
    destruct (fresh (cache w) (now w)); [reflexivity|].
    now rewrite Hgate. }
  unfold health_check, try_except, bind, utcnow_isoformat, ret.
  simpl. now rewrite Hurl.
Qed.

Lemma nothing_sent_without_url_witness :
  get_targets unconfigured (world_at 12000%Q filled_cache (always (success (JObj []))))
  = (Raise configuration_missing,
     world_at 12000%Q filled_cache (always (success (JObj [])))).
Proof.
  exact (proj1 (proj2 (proj2 (proj2 (proj2 (proj2
           (nothing_sent_without_url unconfigured
              (world_at 12000%Q filled_cache (always (success (JObj [])))) eq_refl))))))).
Defined.

(** X2.  With a URL configured, a gateway call sends exactly one request,
    whatever the reply and whether it returns or raises: to the URL of the
    configuration, its trailing slashes removed, followed by [/api/v1/] and
    the endpoint, with the parameters as given and the TLS verification of
    the configuration.  The cache, the clock and the reported ticks are as
    before. *)
Theorem gateway_sends_one_request (config : PrometheusConfig) (endpoint : string)
    (params : option (list (string * string))) (w : world) :
  Str.truthy (url config) = true ->
  let after := snd (make_prometheus_request config endpoint params w) in
  (exists r,
     sent after = (sent w ++ [r])%list
     /\ req_url r = Str.rstrip "/" (url config) ++ "/api/v1/" ++ endpoint
     /\ req_params r = params
     /\ req_verify r = url_ssl_verify config)
  /\ cache after = cache w /\ now after = now w /\ reported after = reported w.
Proof.
  intros Hurl after. unfold after.
  rewrite make_prometheus_request_eq, Hurl. simpl.
  split; [|repeat split].
  exists (outbound config endpoint params). repeat split.
Qed.

Lemma gateway_sends_one_request_witness :
  map (fun r => (req_url r, req_params r, req_verify r))
    (sent (snd (make_prometheus_request basic_config "targets" None
                  (world_at 12000%Q empty_cache (always (Response 500 None))))))
  = [("http://prometheus:9090/api/v1/targets", None, false)].
Proof.
  destruct (gateway_sends_one_request basic_config "targets" None
              (world_at 12000%Q empty_cache (always (Response 500 None))) eq_refl)
    as [[r [Hsent [Hurl [Hparams Hverify]]]] _].
  rewrite Hsent. simpl. rewrite Hurl, Hparams, Hverify. reflexivity.
Defined.

(** X3.  The headers of every request follow one rule: an entry of the
    custom headers wins; for a name the custom headers do not have, the
    gateway sends the tenant under [X-Scope-OrgID] when one is configured
    and the bearer token under [Authorization] when one is configured, and
    no other header. *)
Theorem request_headers_precedence (config : PrometheusConfig) (endpoint : string)
    (params : option (list (string * string))) (w : world) (r : request) :
  In r (sent (snd (make_prometheus_request config endpoint params w))) ->
  In r (sent w)
  \/ forall k,
       req_headers r !! k
       = match custom_header config k with
         | Some v => Some v
         | None => own_header config k
         end.
Proof.
  rewrite make_prometheus_request_eq.
  destruct (Str.truthy (url config)); simpl; [|now left].
  intros Hin. apply in_app_or in Hin as [Hold|[<-|[]]]; [now left|].
  right. intros k. apply outbound_header.
Qed.

(** The tenant of the configuration is replaced by the one of the custom
    headers, and a user with a password sets no [Authorization] header. *)
Lemma request_headers_precedence_witness :
  map (fun r => (req_headers r !! "X-Scope-OrgID", req_headers r !! "Authorization"))
    (sent (snd (make_prometheus_request basic_config "targets" None
                  (world_at 12000%Q empty_cache (always NoReply)))))
  = [(Some "tenant-2", None)].
Proof.
  assert (Hsent : sent (snd (make_prometheus_request basic_config "targets" None
                               (world_at 12000%Q empty_cache (always NoReply))))
                  = [outbound basic_config "targets" None]) by reflexivity.
  assert (Hin : In (outbound basic_config "targets" None)
                  (sent (snd (make_prometheus_request basic_config "targets" None
                                (world_at 12000%Q empty_cache (always NoReply))))))
    by (rewrite Hsent; simpl; auto).
  destruct (request_headers_precedence basic_config "targets" None _ _ Hin)
    as [[]|Hrule].
  rewrite Hsent. simpl. rewrite !Hrule. reflexivity.
Defined.

(** X4.  The credentials of every request: with a token configured none is
    passed to [requests.get]; without a token, the user and the password
    are passed as basic credentials when both are configured, and nothing
    is passed when one of them is missing. *)
Theorem request_credentials (config : PrometheusConfig) (endpoint : string)
    (params : option (list (string * string))) (w : world) (r : request) :
  In r (sent (snd (make_prometheus_request config endpoint params w))) ->
  In r (sent w)
  \/ req_auth r
     = if truthy (token config) then None
       else if truthy (username config) && truthy (password config)
            then Some (HTTPBasicAuth (text (username config)) (text (password config)))
            else None.
Proof.
  rewrite make_prometheus_request_eq.
  destruct (Str.truthy (url config)); simpl; [|now left].
  intros Hin. apply in_app_or in Hin as [Hold|[<-|[]]]; [now left|].
  right. unfold outbound, get_prometheus_auth. simpl.
  destruct (truthy (token config)); [reflexivity|].
  destruct (truthy (username config) && truthy (password config)); reflexivity.
Qed.

Lemma request_credentials_witness :
  map req_auth
    (sent (snd (make_prometheus_request basic_config "targets" None
                  (world_at 12000%Q empty_cache (always NoReply)))))
  = [Some (HTTPBasicAuth "admin" "secret")].
Proof.
  assert (Hsent : sent (snd (make_prometheus_request basic_config "targets" None
                               (world_at 12000%Q empty_cache (always NoReply))))
                  = [outbound basic_config "targets" None]) by reflexivity.
  assert (Hin : In (outbound basic_config "targets" None)
                  (sent (snd (make_prometheus_request basic_config "targets" None
                                (world_at 12000%Q empty_cache (always NoReply))))))
    by (rewrite Hsent; simpl; auto).
  destruct (request_credentials basic_config "targets" None _ _ Hin) as [[]|Hrule].
  rewrite Hsent. cbn [map]. rewrite Hrule. reflexivity.
Defined.

(** X5.  Trailing slashes of the configured URL do not matter: the part of
    the request URL before [/api/v1/] never ends in a slash, it is the
    configured URL when that one does not end in a slash, and one more slash
    at the end of the configured URL gives the same request URL. *)
Theorem trailing_slashes_are_dropped (config : PrometheusConfig) (u endpoint : string)
    (params : option (list (string * string))) (w : world) :
  Str.truthy u = true ->
  (exists base r,
     sent (snd (make_prometheus_request (with_url u config) endpoint params w))
     = (sent w ++ [r])%list
     /\ req_url r = base ++ "/api/v1/" ++ endpoint
     /\ ends_with "/" base = false
     /\ (ends_with "/" u = false -> base = u))
  /\ map req_url
       (sent (snd (make_prometheus_request (with_url (u ++ "/") config)
                     endpoint params w)))
     = map req_url
         (sent (snd (make_prometheus_request (with_url u config) endpoint params w))).
Proof.
  intros Hu. rewrite !make_prometheus_request_eq. simpl. rewrite Hu.
  assert (Hslash : Str.truthy (u ++ "/") = true) by (destruct u; reflexivity).
  rewrite Hslash. simpl. split.
  - exists (Str.rstrip "/" u), (outbound (with_url u config) endpoint params).
    split; [reflexivity|]. split; [reflexivity|].
    split; [apply rstrip_no_trailing|apply rstrip_without_trailing].
  - rewrite !map_app. simpl. now rewrite (rstrip_snoc "/" u).
Qed.

Lemma trailing_slashes_are_dropped_witness :
  map req_url
    (sent (snd (make_prometheus_request (with_url "http://prom:9090/" plain_config)
                  "query" None (world_at 12000%Q empty_cache (always NoReply)))))
  = map req_url
      (sent (snd (make_prometheus_request (with_url "http://prom:9090" plain_config)
                    "query" None (world_at 12000%Q empty_cache (always NoReply))))).
Proof.
  exact (proj2 (trailing_slashes_are_dropped plain_config "http://prom:9090" "query"
                  None (world_at 12000%Q empty_cache (always NoReply)) eq_refl)).
Defined.

(** ** The gateway: what is made of the reply *)

(** X6.  With a URL configured, a request that gets no reply raises
    [RequestException]; a reply with a status from 400 to 599 raises
    [HTTPError] with that status, whatever its body, a success envelope
    included; a reply with another status whose body is not JSON raises the
    decoding failure. *)
Theorem gateway_transport_failures (config : PrometheusConfig) (endpoint : string)
    (params : option (list (string * string))) (w : world) :
  Str.truthy (url config) = true ->
  ((forall r, backend w r = NoReply) ->
   fst (make_prometheus_request config endpoint params w) = Raise RequestException)
  /\ (forall code body,
        (forall r, backend w r = Response code body) ->
        400 <= code < 600 ->
        fst (make_prometheus_request config endpoint params w) = Raise (HTTPError code))
  /\ (forall code,
        (forall r, backend w r = Response code None) ->
        ~ 400 <= code < 600 ->
        fst (make_prometheus_request config endpoint params w) = Raise InvalidJSON).
Proof.
  intros Hurl. rewrite make_prometheus_request_eq, Hurl. simpl.
  split; [|split].
  - intros ->. reflexivity.
  - intros code body -> Hcode. simpl.
    destruct (Z.leb_spec 400 code); [|lia].
    destruct (Z.ltb_spec code 600); [reflexivity|lia].
  - intros code -> Hcode. simpl.
    destruct (Z.leb_spec 400 code), (Z.ltb_spec code 600); simpl;
      try reflexivity; lia.
Qed.

(** A reply [503] that carries a success envelope is a failure all the
    same. *)
Lemma gateway_transport_failures_witness :
  fst (make_prometheus_request plain_config "query" None
         (world_at 12000%Q empty_cache
            (always (Response 503
                       (Some (JObj [("status", JStr "success"); ("data", JArr [])]))))))
  = Raise (HTTPError 503).
Proof.
  assert (Hcode : 400 <= 503 < 600) by lia.
  exact (proj1 (proj2 (gateway_transport_failures plain_config "query" None
           (world_at 12000%Q empty_cache
              (always (Response 503
                         (Some (JObj [("status", JStr "success"); ("data", JArr [])])))))
           eq_refl)) 503 _ (fun _ => eq_refl) Hcode).
Defined.

(** X7.  With a URL configured and a reply whose status is not from 400 to
    599 and whose body is JSON: a dictionary with the status [success]
    gives its [data] entry as it is, whatever else the dictionary holds, and
    raises [KeyError] for [data] when it has none; a dictionary without
    [status] raises [KeyError] for [status]; a body that is not a
    dictionary raises [TypeError]. *)
Theorem gateway_envelope (config : PrometheusConfig) (endpoint : string)
    (params : option (list (string * string))) (w : world) (code : Z) (doc : json) :
  Str.truthy (url config) = true ->
  (forall r, backend w r = Response code (Some doc)) ->
  ~ 400 <= code < 600 ->
  (forall fields, doc = JObj fields ->
     lookup_field "status" fields = Some (JStr "success") ->
     fst (make_prometheus_request config endpoint params w)
     = match lookup_field "data" fields with
       | Some payload => Return payload
       | None => Raise (KeyError "data")
       end)
  /\ (forall fields, doc = JObj fields ->
        lookup_field "status" fields = None ->
        fst (make_prometheus_request config endpoint params w)
        = Raise (KeyError "status"))
  /\ (is_dict doc = false ->
      fst (make_prometheus_request config endpoint params w) = Raise TypeError).
Proof.
  intros Hurl Hreply Hcode.
  rewrite make_prometheus_request_eq, Hurl, Hreply. simpl.
  assert (Hok : (400 <=? code) && (code <? 600) = false).
  { destruct (Z.leb_spec 400 code), (Z.ltb_spec code 600); simpl;
      try reflexivity; lia. }
  rewrite Hok. split; [|split].
  - intros fields -> Hstatus. simpl. rewrite Hstatus. simpl.
    destruct (lookup_field "data" fields); reflexivity.
  - intros fields -> Hstatus. simpl. now rewrite Hstatus.
  - intros Hdoc. destruct doc; try discriminate; reflexivity.
Qed.

(** A redirect status with a success envelope is taken as a success; the
    [error] entry beside it is ignored. *)
Lemma gateway_envelope_witness :
  fst (make_prometheus_request plain_config "query" None
         (world_at 12000%Q empty_cache
            (always (Response 302
                       (Some (JObj [("status", JStr "success");
                                    ("error", JStr "ignored");
                                    ("data", JNum 7)]))))))
  = Return (JNum 7).
Proof.
  assert (Hcode : ~ 400 <= 302 < 600) by lia.
  exact (proj1 (gateway_envelope plain_config "query" None
           (world_at 12000%Q empty_cache
              (always (Response 302
                         (Some (JObj [("status", JStr "success");
                                      ("error", JStr "ignored");
                                      ("data", JNum 7)])))))
           302 _ eq_refl (fun _ => eq_refl) Hcode) _ eq_refl eq_refl).
Defined.

(** ** The cache and the two listings *)

Section ListingWorld.

Variable config : PrometheusConfig.

(** What [list_metrics] does to the world is what its one gateway call
    does, reported ticks apart. *)
Lemma list_metrics_world limit offset filter_pattern ctx (w : world) :
  exists ticks,
    snd (list_metrics config limit offset filter_pattern ctx w)
    = with_reported ticks
        (snd (make_prometheus_request config names_endpoint None w)).
Proof.
  unfold list_metrics, report_if, bind, lift, ret. fold names_endpoint.
  destruct ctx as [c|].
  - rewrite report_progress_eq, gateway_with_reported.
    destruct (make_prometheus_request config names_endpoint None w) as [[payload|e] w1];
      [|eexists; reflexivity].
    destruct limit as [l|], (truthy filter_pattern); split_outcomes;
      eexists; reflexivity.
  - simpl.
    destruct (make_prometheus_request config names_endpoint None w) as [[payload|e] w1];
      [|exists (reported w1); now rewrite with_reported_same].
    destruct limit as [l|], (truthy filter_pattern); split_outcomes;
      exists (reported w1); now rewrite with_reported_same.
Qed.

End ListingWorld.

(** X8.  A refresh that succeeds replaces the snapshot: when the cache is
    not fresh and the gateway delivers a list, [get_cached_metrics] returns
    that list and stores it under the reading of the clock taken on entry;
    a call at any reading less than the TTL after it returns the same list
    and leaves the world as it is, whatever the backend then answers. *)
Theorem refresh_stores_snapshot (config : PrometheusConfig) (w : world)
    (items : list json) :
  fresh (cache w) (now w) = false ->
  fst (make_prometheus_request config names_endpoint None w) = Return (JArr items) ->
  let after := get_cached_metrics config w in
  fst after = Return (JArr items)
  /\ cache (snd after) = {| cache_data := JArr items; cache_timestamp := now w |}
  /\ forall (t : Q) (b : request -> reply),
       (t - now w < _CACHE_TTL)%Q ->
       get_cached_metrics config (later t b (snd after))
       = (Return (JArr items), later t b (snd after)).
Proof.
  intros Hstale Hfetch after.
  assert (Hafter : after
            = (Return (JArr items),
               with_cache {| cache_data := JArr items; cache_timestamp := now w |}
                 (snd (make_prometheus_request config names_endpoint None w)))).
  { unfold after. rewrite get_cached_metrics_eq, Hstale.
    destruct (make_prometheus_request config names_endpoint None w) as [[payload|e] w1];
      simpl in Hfetch; [|discriminate].
    injection Hfetch as ->. reflexivity. }
  rewrite Hafter. simpl. split; [reflexivity|]. split; [reflexivity|].
  intros t b Ht. rewrite get_cached_metrics_eq. simpl.
  assert (Hfresh : fresh {| cache_data := JArr items; cache_timestamp := now w |} t = true).
  { apply fresh_iff. simpl. split; [discriminate|exact Ht]. }
  now rewrite Hfresh.
Qed.

Lemma refresh_stores_snapshot_witness :
  fst (get_cached_metrics plain_config
         (world_at 12000%Q filled_cache (always (success (catalog ["up"])))))
  = Return (catalog ["up"])
  /\ fst (get_cached_metrics plain_config
            (later 12299%Q (always NoReply)
               (snd (get_cached_metrics plain_config
                       (world_at 12000%Q filled_cache
                          (always (success (catalog ["up"]))))))))
     = Return (catalog ["up"]).
Proof.
  destruct (refresh_stores_snapshot plain_config
              (world_at 12000%Q filled_cache (always (success (catalog ["up"]))))
              [JStr "up"] eq_refl eq_refl) as [Hfirst [_ Hnext]].
  split; [exact Hfirst|].
  assert (Ht : (12299 - 12000 < _CACHE_TTL)%Q) by (vm_compute; reflexivity).
  now rewrite (Hnext 12299%Q (always NoReply) Ht).
Defined.

(** X9.  [list_metrics] goes past the cache: with a URL configured it sends
    one request for the names on every call, a fresh cache or not, and it
    leaves the cache as it found it. *)
Theorem list_metrics_bypasses_cache (config : PrometheusConfig) (w : world)
    (limit : option Z) (offset : Z) (filter_pattern : option string)
    (ctx : option Context) :
  Str.truthy (url config) = true ->
  let after := snd (list_metrics config limit offset filter_pattern ctx w) in
  cache after = cache w
  /\ exists r,
       sent after = (sent w ++ [r])%list
       /\ req_url r = Str.rstrip "/" (url config) ++ "/api/v1/label/__name__/values"
       /\ req_params r = None.
Proof.
  intros Hurl after. unfold after.
  destruct (list_metrics_world config limit offset filter_pattern ctx w) as [ticks ->].
  rewrite make_prometheus_request_eq, Hurl. simpl.
  split; [reflexivity|].
  exists (outbound config names_endpoint None). repeat split.
Qed.

(** A fresh cache does not keep [list_metrics] from asking the backend. *)
Lemma list_metrics_bypasses_cache_witness :
  let w := world_at 1010%Q filled_cache (always (success (catalog ["up"]))) in
  fresh (cache w) (now w) = true
  /\ length (sent (snd (list_metrics plain_config None 0 None None w))) = 1%nat
  /\ cache (snd (list_metrics plain_config None 0 None None w)) = filled_cache.
Proof.
  intros w.
  destruct (list_metrics_bypasses_cache plain_config w None 0 None None eq_refl)
    as [Hcache [r [Hsent _]]].
  split; [reflexivity|]. split; [now rewrite Hsent|exact Hcache].
Defined.

(** ** Failures of the backend, seen from the handlers *)

(** X10.  A failure of the gateway reaches the caller of [execute_query],
    [execute_range_query], [list_metrics], [get_metric_metadata] and
    [get_targets] as it is; a handler that reports progress has then
    reported its first tick and no other. *)
Theorem gateway_failures_reach_the_caller (config : PrometheusConfig) (w : world)
    (e : exn) :
  (forall query time,
     fst (make_prometheus_request config "query"
            (Some (if truthy time then [("query", query); ("time", text time)]
                   else [("query", query)])) w) = Raise e ->
     fst (execute_query config query time w) = Raise e)
  /\ (forall query start end_ step ctx,
        fst (make_prometheus_request config "query_range"
               (range_params query start end_ step) w) = Raise e ->
        let after := execute_range_query config query start end_ step ctx w in
        fst after = Raise e
        /\ reported (snd after)
           = match ctx with
             | Some _ =>
                 (reported w ++ [first_tick "Iniciando consulta de período..."])%list
             | None => reported w
             end)
  /\ (forall limit offset filter_pattern ctx,
        fst (make_prometheus_request config names_endpoint None w) = Raise e ->
        let after := list_metrics config limit offset filter_pattern ctx w in
        fst after = Raise e
        /\ reported (snd after)
           = match ctx with
             | Some _ =>
                 (reported w ++ [first_tick "Buscando lista de métricas..."])%list
             | None => reported w
             end)
  /\ (forall metric,
        fst (make_prometheus_request config ("metadata?metric=" ++ metric) None w)
        = Raise e ->
        fst (get_metric_metadata config metric w) = Raise e)
  /\ (fst (make_prometheus_request config "targets" None w) = Raise e ->
      fst (get_targets config w) = Raise e).
Proof.
  split; [intros query time; apply execute_query_propagates|].
  split.
  { intros query start end_ step ctx Hfail.
    pose proof (gateway_preserves config "query_range"
                  (range_params query start end_ step) w) as Hkeep.
    unfold execute_range_query, report_if, bind, range_params in *.
    destruct ctx as [c|].
    - rewrite report_progress_eq, gateway_with_reported.
      destruct (make_prometheus_request config "query_range"
                  (Some [("query", query); ("start", start); ("end", end_);
                         ("step", step)]) w) as [[payload|e'] w1];
        simpl in *; [discriminate|]. split; [congruence|reflexivity].
    - simpl.
      destruct (make_prometheus_request config "query_range"
                  (Some [("query", query); ("start", start); ("end", end_);
                         ("step", step)]) w) as [[payload|e'] w1];
        simpl in *; [discriminate|]. split; [congruence|tauto]. }
  split.
  { intros limit offset filter_pattern ctx Hfail.
    pose proof (gateway_preserves config names_endpoint None w) as Hkeep.
    unfold list_metrics, report_if, bind. fold names_endpoint.
    destruct ctx as [c|].
    - rewrite report_progress_eq, gateway_with_reported.
      destruct (make_prometheus_request config names_endpoint None w)
        as [[payload|e'] w1]; simpl in *; [discriminate|].
      split; [congruence|reflexivity].
    - simpl.
      destruct (make_prometheus_request config names_endpoint None w)
        as [[payload|e'] w1]; simpl in *; [discriminate|].
      split; [congruence|tauto]. }
  split.
  { intros metric Hfail. unfold get_metric_metadata, bind.
    destruct (make_prometheus_request config ("metadata?metric=" ++ metric) None w)
      as [[payload|e'] w1]; simpl in *; [discriminate|congruence]. }
  intros Hfail. unfold get_targets, bind.
  destruct (make_prometheus_request config "targets" None w)
    as [[payload|e'] w1]; simpl in *; [discriminate|congruence].
Qed.

(** A backend that answers [500] to a listing with a reporter. *)
Lemma gateway_failures_reach_the_caller_witness :
  let after :=
    list_metrics plain_config (Some 10) 0 None (Some Reporter)
      (world_at 12000%Q filled_cache (always (Response 500 None))) in
  fst after = Raise (HTTPError 500)
  /\ map tick_progress (reported (snd after)) = [0].
Proof.
  intros after.
  destruct (proj1 (proj2 (proj2 (gateway_failures_reach_the_caller plain_config
              (world_at 12000%Q filled_cache (always (Response 500 None)))
              (HTTPError 500))))
              (Some 10) 0 None (Some Reporter) eq_refl) as [Hfail Hticks].
  split; [exact Hfail|]. fold after in Hticks. now rewrite Hticks.
Defined.

(** X11.  [search_metrics] outlives a failure of the backend: when the
    gateway call for the catalog would raise, it returns the page of the
    matching names of the snapshot in the cache, however old, and the empty
    page when the cache holds no snapshot. *)
Theorem search_metrics_survives_failure (config : PrometheusConfig) (w : world)
    (e : exn) (prefix : string) (limit : option Z) (offset : Z)
    (ctx : option Context) :
  fst (make_prometheus_request config names_endpoint None w) = Raise e ->
  (forall names,
     cache_data (cache w) = catalog names ->
     fst (search_metrics config prefix limit offset ctx w)
     = Return (paginated (matching prefix names) limit offset))
  /\ (cache_data (cache w) = JNull ->
      fst (search_metrics config prefix limit offset ctx w)
      = Return (paginated [] limit offset)).
Proof.
  intros Hfail.
  destruct (get_cached_metrics_fallback config w e Hfail) as [Hget _].
  split.
  - intros names Hdata. apply search_metrics_catalog.
    rewrite Hget. unfold snapshot_or_empty. now rewrite Hdata.
  - intros Hdata.
    apply (search_metrics_catalog config prefix limit offset ctx w []).
    rewrite Hget. unfold snapshot_or_empty. now rewrite Hdata.
Qed.

(** A snapshot three hours old and a backend that is down. *)
Lemma search_metrics_survives_failure_witness :
  fst (search_metrics plain_config "go" (Some 50) 0 None
         (world_at 12000%Q filled_cache (always NoReply)))
  = Return {| metrics := catalog ["go_goroutines"]; total_count := 1;
              returned_count := 1; offset := 0; has_more := false |}.
Proof.
  exact (proj1 (search_metrics_survives_failure plain_config
           (world_at 12000%Q filled_cache (always NoReply)) RequestException
           "go" (Some 50) 0 None eq_refl) some_names eq_refl).
Defined.

(** ** Walking the pages *)

Lemma slice_nonnegative {A : Type} (l : list A) (start stop : Z) :
  0 <= start -> 0 <= stop ->
  slice l start stop
  = firstn (Z.to_nat (Z.min stop (Z.of_nat (length l)))
            - Z.to_nat (Z.min start (Z.of_nat (length l))))
      (skipn (Z.to_nat (Z.min start (Z.of_nat (length l)))) l).
Proof.
  intros Hstart Hstop. unfold slice, clamp_index.
  destruct (Z.ltb_spec start 0); [lia|]. destruct (Z.ltb_spec stop 0); [lia|].
  f_equal. lia.
Qed.

Lemma slice_app {A : Type} (l : list A) (a b c : Z) :
  0 <= a <= b -> b <= c ->
  (slice l a b ++ slice l b c)%list = slice l a c.
Proof.
  intros Hab Hbc. rewrite !slice_nonnegative by lia.
  set (n := Z.of_nat (length l)).
  set (x := Z.to_nat (Z.min a n)). set (y := Z.to_nat (Z.min b n)).
  set (z := Z.to_nat (Z.min c n)).
  assert (Hxy : (x <= y)%nat) by (unfold x, y; lia).
  assert (Hyz : (y <= z)%nat) by (unfold y, z; lia).
  replace (skipn y l) with (skipn (y - x) (skipn x l)).
  - rewrite take_take_drop. f_equal. lia.
  - rewrite drop_drop. f_equal. lia.
Qed.

Lemma slice_beyond {A : Type} (l : list A) (start stop : Z) :
  Z.of_nat (length l) <= start -> 0 <= stop -> slice l start stop = [].
Proof.
  intros Hstart Hstop. rewrite slice_nonnegative by lia.
  rewrite skipn_all2 by lia. apply firstn_nil.
Qed.

(** X12.  Pages follow one another without gap or overlap: on a catalog,
    the names of the page of [k1] names from [offset], followed by those of
    the page of [k2] names from [offset + k1], are the names of the page of
    [k1 + k2] names from [offset]; in [list_metrics], whatever the filter,
    and in [search_metrics]. *)
Theorem pages_concatenate (config : PrometheusConfig) (w : world)
    (names : list string) (offset k1 k2 : Z) :
  0 <= offset -> 0 <= k1 -> 0 <= k2 ->
  (forall filter_pattern ctx,
     fst (make_prometheus_request config names_endpoint None w)
     = Return (catalog names) ->
     exists p1 p2 p12,
       fst (list_metrics config (Some k1) offset filter_pattern ctx w) = Return p1
       /\ fst (list_metrics config (Some k2) (offset + k1) filter_pattern ctx w)
          = Return p2
       /\ fst (list_metrics config (Some (k1 + k2)) offset filter_pattern ctx w)
          = Return p12
       /\ (names_of (metrics p1) ++ names_of (metrics p2))%list
          = names_of (metrics p12))
  /\ (forall prefix ctx,
        fst (get_cached_metrics config w) = Return (catalog names) ->
        exists p1 p2 p12,
          fst (search_metrics config prefix (Some k1) offset ctx w) = Return p1
          /\ fst (search_metrics config prefix (Some k2) (offset + k1) ctx w)
             = Return p2
          /\ fst (search_metrics config prefix (Some (k1 + k2)) offset ctx w)
             = Return p12
          /\ (names_of (metrics p1) ++ names_of (metrics p2))%list
             = names_of (metrics p12)).
Proof.
  intros Hoff Hk1 Hk2.
  assert (Hpages : forall kept : list string,
    (names_of (metrics (paginated kept (Some k1) offset))
       ++ names_of (metrics (paginated kept (Some k2) (offset + k1))))%list
    = names_of (metrics (paginated kept (Some (k1 + k2)) offset))).
  { intros kept. unfold paginated, catalog. simpl.
    rewrite <- map_app. f_equal.
    replace (offset + (k1 + k2)) with (offset + k1 + k2) by lia.
    apply slice_app; lia. }
  split.
  - intros filter_pattern ctx Hfetch.
    eexists _, _, _.
    split; [exact (list_metrics_catalog config _ _ _ _ w names Hfetch)|].
    split; [exact (list_metrics_catalog config _ _ _ _ w names Hfetch)|].
    split; [exact (list_metrics_catalog config _ _ _ _ w names Hfetch)|].
    apply Hpages.
  - intros prefix ctx Hget.
    eexists _, _, _.
    split; [exact (search_metrics_catalog config _ _ _ _ w names Hget)|].
    split; [exact (search_metrics_catalog config _ _ _ _ w names Hget)|].
    split; [exact (search_metrics_catalog config _ _ _ _ w names Hget)|].
    apply Hpages.
Qed.

Lemma pages_concatenate_witness :
  exists p1 p2 p12,
    fst (list_metrics plain_config (Some 1) 1 None None catalog_world) = Return p1
    /\ fst (list_metrics plain_config (Some 2) (1 + 1) None None catalog_world)
       = Return p2
    /\ fst (list_metrics plain_config (Some (1 + 2)) 1 None None catalog_world)
       = Return p12
    /\ (names_of (metrics p1) ++ names_of (metrics p2))%list = names_of (metrics p12).
Proof.
  assert (H0 : 0 <= 1) by lia. assert (H2 : 0 <= 2) by lia.
  exact (proj1 (pages_concatenate plain_config catalog_world some_names 1 1 2
                  H0 H0 H2) None None eq_refl).
Defined.

(** X13.  An offset at or past the end of the names left by the filter is
    no error: with a valid limit, both listings return an empty page that
    counts nothing and has nothing after it, beside the total. *)
Theorem offset_past_the_end (config : PrometheusConfig) (w : world)
    (names : list string) (limit : option Z) (offset : Z) :
  valid_limit limit ->
  (forall filter_pattern ctx,
     fst (make_prometheus_request config names_endpoint None w)
     = Return (catalog names) ->
     Z.of_nat (length (remaining filter_pattern names)) <= offset ->
     fst (list_metrics config limit offset filter_pattern ctx w)
     = Return {| metrics := JArr [];
                 total_count := Z.of_nat (length (remaining filter_pattern names));
                 returned_count := 0; offset := offset; has_more := false |})
  /\ (forall prefix ctx,
        fst (get_cached_metrics config w) = Return (catalog names) ->
        Z.of_nat (length (matching prefix names)) <= offset ->
        fst (search_metrics config prefix limit offset ctx w)
        = Return {| metrics := JArr [];
                    total_count := Z.of_nat (length (matching prefix names));
                    returned_count := 0; offset := offset; has_more := false |}).
Proof.
  intros Hlim.
  assert (Hempty : forall kept : list string,
    Z.of_nat (length kept) <= offset ->
    paginated kept limit offset
    = {| metrics := JArr []; total_count := Z.of_nat (length kept);
         returned_count := 0; offset := offset; has_more := false |}).
  { intros kept Hpast. unfold paginated, catalog.
    rewrite slice_beyond; [|exact Hpast|destruct limit; simpl in *; lia].
    simpl. f_equal.
    destruct limit as [l|]; simpl in *.
    - destruct (Z.ltb_spec (offset + l) (Z.of_nat (length kept))); [lia|reflexivity].
    - apply Z.ltb_irrefl. }
  split.
  - intros filter_pattern ctx Hfetch Hpast.
    rewrite (list_metrics_catalog config limit offset filter_pattern ctx w names Hfetch).
    now rewrite Hempty.
  - intros prefix ctx Hget Hpast.
    rewrite (search_metrics_catalog config prefix limit offset ctx w names Hget).
    now rewrite Hempty.
Qed.

Lemma offset_past_the_end_witness :
  fst (list_metrics plain_config (Some 10) 4 None None catalog_world)
  = Return {| metrics := JArr []; total_count := 4; returned_count := 0;
              offset := 4; has_more := false |}.
Proof.
  assert (Hlim : valid_limit (Some 10)) by (simpl; lia).
  assert (Hpast : Z.of_nat (length (remaining None some_names)) <= 4) by (simpl; lia).
  exact (proj1 (offset_past_the_end plain_config catalog_world some_names (Some 10) 4
                  Hlim) None None eq_refl Hpast).
Defined.

(** ** The filter *)

Lemma lower_truthy (s : string) : Str.truthy (Str.lower s) = Str.truthy s.
Proof. destruct s; reflexivity. Qed.

(** X14.  The filter does not see the case of the pattern: two patterns
    that differ in the case of their ASCII letters only make
    [search_metrics] the same call, and [list_metrics] as well. *)
Theorem filter_ignores_case (config : PrometheusConfig) (w : world)
    (p1 p2 : string) (limit : option Z) (offset : Z) (ctx : option Context) :
  Str.lower p1 = Str.lower p2 ->
  search_metrics config p1 limit offset ctx w
  = search_metrics config p2 limit offset ctx w
  /\ list_metrics config limit offset (Some p1) ctx w
     = list_metrics config limit offset (Some p2) ctx w.
Proof.
  intros Hcase. split.
  - unfold search_metrics. now rewrite Hcase.
  - unfold list_metrics. simpl. rewrite Hcase.
    now rewrite <- (lower_truthy p1), <- (lower_truthy p2), Hcase.
Qed.

Lemma filter_ignores_case_witness :
  fst (search_metrics plain_config "HTTP_Err" None 0 None catalog_world)
  = fst (search_metrics plain_config "http_err" None 0 None catalog_world).
Proof.
  now rewrite (proj1 (filter_ignores_case plain_config catalog_world
                        "HTTP_Err" "http_err" None 0 None eq_refl)).
Defined.

(** X15.  The two listings agree: when the cache is not fresh and the
    gateway delivers a catalog, [search_metrics] for a term returns what
    [list_metrics] returns for the same text as filter, the empty text
    included. *)
Theorem search_agrees_with_list (config : PrometheusConfig) (w : world)
    (names : list string) (term : string) (limit : option Z) (offset : Z)
    (ctx ctx' : option Context) :
  fresh (cache w) (now w) = false ->
  fst (make_prometheus_request config names_endpoint None w) = Return (catalog names) ->
  fst (search_metrics config term limit offset ctx w)
  = fst (list_metrics config limit offset (Some term) ctx' w).
Proof.
  intros Hstale Hfetch.
  assert (Hget : fst (get_cached_metrics config w) = Return (catalog names)).
  { rewrite get_cached_metrics_eq, Hstale.
    destruct (make_prometheus_request config names_endpoint None w) as [[payload|e] w1];
      simpl in Hfetch; [|discriminate].
    injection Hfetch as ->. reflexivity. }
  rewrite (search_metrics_catalog config term limit offset ctx w names Hget).
  rewrite (list_metrics_catalog config limit offset (Some term) ctx' w names Hfetch).
  unfold remaining. simpl. destruct term; [|reflexivity].
  simpl. now rewrite matching_empty.
Qed.

Lemma search_agrees_with_list_witness :
  fst (search_metrics plain_config "http" (Some 1) 1 None catalog_world)
  = fst (list_metrics plain_config (Some 1) 1 (Some "http") (Some Reporter)
           catalog_world).
Proof.
  exact (search_agrees_with_list plain_config catalog_world some_names "http"
           (Some 1) 1 None (Some Reporter) eq_refl eq_refl).
Defined.

(** ** What the outcome of a handler depends on *)

Section Outcomes.

Variable config : PrometheusConfig.

(** The outcome of [list_metrics] is made of the reply of the backend
    alone; the reporter and the rest of the world have no part in it. *)
Lemma list_metrics_outcome limit offset filter_pattern ctx1 ctx2 (w1 w2 : world) :
  backend w1 = backend w2 ->
  fst (list_metrics config limit offset filter_pattern ctx1 w1)
  = fst (list_metrics config limit offset filter_pattern ctx2 w2).
Proof.
  intros Hb.
  unfold list_metrics, report_if, bind, lift, ret. fold names_endpoint.
  destruct ctx1 as [c1|], ctx2 as [c2|];
    rewrite ?report_progress_eq, ?gateway_with_reported;
    rewrite !make_prometheus_request_eq, Hb;
    destruct (Str.truthy (url config)); try reflexivity; simpl;
    (destruct (interpret (backend w2 (outbound config names_endpoint None)))
       as [payload|e]; [|reflexivity]);
    destruct payload, limit as [l|], (truthy filter_pattern);
    split_outcomes; reflexivity.
Qed.

Lemma execute_range_query_outcome query start end_ step ctx1 ctx2 (w1 w2 : world) :
  backend w1 = backend w2 ->
  fst (execute_range_query config query start end_ step ctx1 w1)
  = fst (execute_range_query config query start end_ step ctx2 w2).
Proof.
  intros Hb.
  unfold execute_range_query, report_if, bind, lift, ret.
  destruct ctx1 as [c1|], ctx2 as [c2|];
    rewrite ?report_progress_eq, ?gateway_with_reported;
    rewrite !make_prometheus_request_eq, Hb;
    destruct (Str.truthy (url config)); try reflexivity; simpl;
    match goal with
    | |- context [interpret ?r] => destruct (interpret r) as [payload|e]
    end; try reflexivity; split_outcomes; reflexivity.
Qed.

Lemma search_metrics_outcome prefix limit offset ctx1 ctx2 (w : world) :
  fst (search_metrics config prefix limit offset ctx1 w)
  = fst (search_metrics config prefix limit offset ctx2 w).
Proof.
  unfold search_metrics, report_if, bind, lift, ret.
  destruct ctx1 as [c1|], ctx2 as [c2|];
    rewrite ?report_progress_eq, ?get_cached_metrics_with_reported; simpl;
    (destruct (get_cached_metrics config w) as [[payload|e] w1]; [|reflexivity]);
    split_outcomes; reflexivity.
Qed.

End Outcomes.

(** X16.  The handlers that go straight to the gateway keep nothing between
    two calls: what [execute_query], [execute_range_query], [list_metrics],
    [get_metric_metadata] and [get_targets] return or raise is the same in
    two worlds whose backends answer alike, whatever the cache, the clock and
    the calls made before.  So a call repeated against a backend that has
    not changed gives what the first call gave. *)
Theorem outcome_depends_on_backend_only (config : PrometheusConfig) (w1 w2 : world) :
  backend w1 = backend w2 ->
  (forall query time,
     fst (execute_query config query time w1)
     = fst (execute_query config query time w2))
  /\ (forall query start end_ step ctx1 ctx2,
        fst (execute_range_query config query start end_ step ctx1 w1)
        = fst (execute_range_query config query start end_ step ctx2 w2))
  /\ (forall limit offset filter_pattern ctx1 ctx2,
        fst (list_metrics config limit offset filter_pattern ctx1 w1)
        = fst (list_metrics config limit offset filter_pattern ctx2 w2))
  /\ (forall metric,
        fst (get_metric_metadata config metric w1)
        = fst (get_metric_metadata config metric w2))
  /\ fst (get_targets config w1) = fst (get_targets config w2).
Proof.
  intros Hb.
  split.
  { intros query time. unfold execute_query, bind, lift, ret.
    rewrite !make_prometheus_request_eq, Hb.
    destruct (Str.truthy (url config)); [|reflexivity]. simpl.
    match goal with
    | |- context [interpret ?r] => destruct (interpret r) as [payload|e]
    end; [|reflexivity]. split_outcomes; reflexivity. }
  split; [intros; now apply execute_range_query_outcome|].
  split; [intros; now apply list_metrics_outcome|].
  split.
  { intros metric. unfold get_metric_metadata, bind, lift, ret.
    rewrite !make_prometheus_request_eq, Hb.
    destruct (Str.truthy (url config)); [|reflexivity]. simpl.
    match goal with
    | |- context [interpret ?r] => destruct (interpret r) as [payload|e]
    end; [|reflexivity].
    destruct (contains_str "metadata" payload) as [[|]|e]; simpl;
      [| |reflexivity].
    - split_outcomes; reflexivity.
    - destruct (contains_str "data" payload) as [[|]|e]; split_outcomes; reflexivity. }
  unfold get_targets, bind, lift, ret.
  rewrite !make_prometheus_request_eq, Hb.
  destruct (Str.truthy (url config)); [|reflexivity]. simpl.
  match goal with
  | |- context [interpret ?r] => destruct (interpret r) as [payload|e]
  end; [|reflexivity]. split_outcomes; reflexivity.
Qed.

(** The same instant query twice, the second time an hour later and after
    a search has filled the cache. *)
Lemma outcome_depends_on_backend_only_witness :
  fst (execute_query plain_config "up" None
         (later 15600%Q (backend matrix_world)
            (snd (search_metrics plain_config "up" None 0 None matrix_world))))
  = fst (execute_query plain_config "up" None matrix_world).
Proof.
  exact (proj1 (outcome_depends_on_backend_only plain_config
                  (later 15600%Q (backend matrix_world)
                     (snd (search_metrics plain_config "up" None 0 None matrix_world)))
                  matrix_world eq_refl) "up" None).
Defined.

(** X17.  Reporting progress is advice only: with or without a reporter,
    [list_metrics] and [search_metrics] return or raise the same, send the
    same requests and leave the same cache. *)
Theorem reporter_changes_nothing_else (config : PrometheusConfig) (w : world)
    (limit : option Z) (offset : Z) (ctx1 ctx2 : option Context) :
  (forall filter_pattern,
     let one := list_metrics config limit offset filter_pattern ctx1 w in
     let other := list_metrics config limit offset filter_pattern ctx2 w in
     fst one = fst other
     /\ sent (snd one) = sent (snd other) /\ cache (snd one) = cache (snd other))
  /\ (forall prefix,
        let one := search_metrics config prefix limit offset ctx1 w in
        let other := search_metrics config prefix limit offset ctx2 w in
        fst one = fst other
        /\ sent (snd one) = sent (snd other) /\ cache (snd one) = cache (snd other)).
Proof.
  split.
  - intros filter_pattern one other. unfold one, other.
    split; [now apply list_metrics_outcome|].
    destruct (list_metrics_world config limit offset filter_pattern ctx1 w) as [t1 ->].
    destruct (list_metrics_world config limit offset filter_pattern ctx2 w) as [t2 ->].
    split; reflexivity.
  - intros prefix one other. unfold one, other.
    split; [apply search_metrics_outcome|].
    destruct (search_metrics_world config prefix limit offset ctx1 w) as [t1 ->].
    destruct (search_metrics_world config prefix limit offset ctx2 w) as [t2 ->].
    split; reflexivity.
Qed.

(** ** Results of the queries and of the targets *)

(** X18.  An instant query returns the [resultType] and the [result] of the
    payload and nothing else of it; a payload without [resultType], or with
    it and without [result], raises [KeyError] for the missing key.  The
    result carries no link when links are disabled, and otherwise one link
    to the graph page, with the query and, when a time that is not empty was
    given, the time. *)
Theorem instant_query_result (config : PrometheusConfig) (w : world)
    (query : string) (time : option string) (payload : json) :
  fst (make_prometheus_request config "query" (instant_params query time) w)
  = Return payload ->
  fst (execute_query config query time w)
  = match getitem payload "resultType", getitem payload "result" with
    | Return result_type, Return values =>
        Return
          {| resultType := result_type; result := values;
             links :=
               if disable_prometheus_links config then None
               else Some [graph_link config
                            (if truthy time
                             then [("g0.expr", query); ("g0.tab", "0");
                                   ("g0.moment_input", text time)]
                             else [("g0.expr", query); ("g0.tab", "0")])] |}
    | Raise e, _ => Raise e
    | Return _, Raise e => Raise e
    end.
Proof.
  intros Hfetch. unfold execute_query, bind, lift, ret, instant_params in *.
  destruct (truthy time); simpl in *;
    match goal with
    | |- context [make_prometheus_request ?c ?ep ?ps ?w0] =>
        destruct (make_prometheus_request c ep ps w0) as [[p|e] w1]
    end; simpl in *; try discriminate; injection Hfetch as ->;
    destruct (getitem payload "resultType") as [rt|e]; simpl; try reflexivity;
    destruct (getitem payload "result") as [vs|e]; simpl; try reflexivity;
    unfold ui_links, graph_link;
    destruct (disable_prometheus_links config); reflexivity.
Qed.

(** A vector with a warning beside it: the warning is not returned, and the
    braces and quotes of the query are encoded in the link. *)
Lemma instant_query_result_witness :
  fst (execute_query plain_config "up{job=~'a b'}" (Some "")
         (world_at 12000%Q empty_cache
            (always (success (JObj [("resultType", JStr "vector");
                                     ("result", JArr []);
                                     ("warnings", JArr [JStr "slow"])])))))
  = Return
      {| resultType := JStr "vector"; result := JArr [];
         links := Some
           [{| href := "http://prometheus:9090/graph?g0.expr=up%7Bjob%3D~%27a+b%27%7D&g0.tab=0";
               rel := "prometheus-ui"; title := "Ver no Prometheus UI" |}] |}.
Proof.
  exact (instant_query_result plain_config
           (world_at 12000%Q empty_cache
              (always (success (JObj [("resultType", JStr "vector");
                                       ("result", JArr []);
                                       ("warnings", JArr [JStr "slow"])]))))
           "up{job=~'a b'}" (Some "") _ eq_refl).
Defined.

(** X19.  [get_targets] returns the [activeTargets] and the
    [droppedTargets] of the payload, lists or dictionaries, and nothing else
    of it; a payload without [activeTargets], or with it and without
    [droppedTargets], raises [KeyError] for the missing key, the first
    missing one when both are. *)
Theorem get_targets_result (config : PrometheusConfig) (w : world)
    (fields : list (string * json)) :
  fst (make_prometheus_request config "targets" None w) = Return (JObj fields) ->
  (forall active dropped,
     lookup_field "activeTargets" fields = Some active ->
     lookup_field "droppedTargets" fields = Some dropped ->
     list_or_dict active = true -> list_or_dict dropped = true ->
     fst (get_targets config w)
     = Return {| activeTargets := active; droppedTargets := dropped |})
  /\ (lookup_field "activeTargets" fields = None ->
      fst (get_targets config w) = Raise (KeyError "activeTargets"))
  /\ (forall active,
        lookup_field "activeTargets" fields = Some active ->
        lookup_field "droppedTargets" fields = None ->
        fst (get_targets config w) = Raise (KeyError "droppedTargets")).
Proof.
  intros Hfetch. unfold get_targets, bind, lift, ret.
  destruct (make_prometheus_request config "targets" None w) as [[p|e] w1];
    simpl in Hfetch; [|discriminate].
  injection Hfetch as ->. simpl. split; [|split].
  - intros active dropped -> -> Hactive Hdropped. simpl.
    destruct active; try discriminate; destruct dropped; try discriminate; reflexivity.
  - intros ->. reflexivity.
  - intros active -> ->. reflexivity.
Qed.

Lemma get_targets_result_witness :
  fst (get_targets plain_config
         (world_at 12000%Q empty_cache
            (always (success (JObj [("droppedTargets", JArr []);
                                     ("activeTargets", JArr [JObj []]);
                                     ("droppedTargetCounts", JObj [])])))))
  = Return {| activeTargets := JArr [JObj []]; droppedTargets := JArr [] |}.
Proof.
  exact (proj1 (get_targets_result plain_config
                  (world_at 12000%Q empty_cache
                     (always (success (JObj [("droppedTargets", JArr []);
                                              ("activeTargets", JArr [JObj []]);
                                              ("droppedTargetCounts", JObj [])]))))
                  _ eq_refl) _ _ eq_refl eq_refl eq_refl eq_refl).
Defined.

(** ** Suggestions *)

Lemma lookup_field_In {A : Type} (k : string) (fields : list (string * A)) (v : A) :
  lookup_field k fields = Some v -> In (k, v) fields.
Proof.
  induction fields as [|[k' v'] fields IH]; simpl; [discriminate|].
  destruct (String.eqb_spec k k') as [->|Hne].
  - intros [= ->]. now left.
  - intros H. right. now apply IH.
Qed.

Lemma lookup_field_None {A : Type} (k : string) (fields : list (string * A)) :
  lookup_field k fields = None <-> ~ In k (map fst fields).
Proof.
  induction fields as [|[k' v'] fields IH]; simpl; [tauto|].
  destruct (String.eqb_spec k k') as [->|Hne].
  - split; [discriminate|]. intros H. exfalso. apply H. now left.
  - rewrite IH. split.
    + intros H [Heq|Hin]; [congruence|contradiction].
    + intros H Hin. apply H. now right.
Qed.

(** X20.  Whatever the domain asked for, every example that
    [suggest_semconv] returns starts with the name of the domain it
    reports, followed by an underscore. *)
Theorem suggestions_carry_their_domain (asked example : string) :
  In example (examples (suggest_semconv asked)) ->
  Str.starts_with (domain (suggest_semconv asked) ++ "_") example = true.
Proof.
  unfold suggest_semconv. cbn [examples domain].
  destruct (lookup_field (Str.lower asked) semconv_catalog) as [found|] eqn:Hfound;
    [|intros []].
  intros Hin. apply lookup_field_In in Hfound.
  assert (Hall : forallb carries_domain semconv_catalog = true) by reflexivity.
  rewrite forallb_forall in Hall. specialize (Hall _ Hfound).
  unfold carries_domain in Hall. simpl in Hall.
  rewrite forallb_forall in Hall. now apply Hall.
Qed.

Lemma suggestions_carry_their_domain_witness :
  Str.starts_with (domain (suggest_semconv "K8S") ++ "_") "k8s_pod_cpu_usage" = true.
Proof.
  apply (suggestions_carry_their_domain "K8S" "k8s_pod_cpu_usage").
  simpl. auto.
Defined.

(** X21.  [suggest_semconv] looks the domain up without regard to case and
    never fails: the domains it reports as known are the same nine for
    every argument, no name twice; the domain it reports is its argument
    in lower case; the examples are empty exactly when that is none of the
    known domains; and two arguments that differ in case only get the same
    answer. *)
Theorem suggest_semconv_lookup (asked : string) :
  known_domains (suggest_semconv asked)
  = ["http"; "http_client"; "rpc"; "db"; "messaging"; "process"; "system";
     "container"; "k8s"]
  /\ NoDup (known_domains (suggest_semconv asked))
  /\ domain (suggest_semconv asked) = Str.lower asked
  /\ (examples (suggest_semconv asked) = []
      <-> ~ In (Str.lower asked) (known_domains (suggest_semconv asked)))
  /\ (forall other, Str.lower other = Str.lower asked ->
        suggest_semconv other = suggest_semconv asked).
Proof.
  split; [reflexivity|]. split.
  { unfold suggest_semconv. cbn [known_domains].
    apply (bool_decide_unpack _). vm_compute. exact I. }
  split; [reflexivity|]. split.
  - unfold suggest_semconv. cbn [known_domains examples].
    rewrite <- lookup_field_None.
    destruct (lookup_field (Str.lower asked) semconv_catalog) as [found|] eqn:Hfound.
    + split; [|discriminate]. intros ->. apply lookup_field_In in Hfound.
      assert (Hall : forallb has_examples semconv_catalog = true) by reflexivity.
      rewrite forallb_forall in Hall. specialize (Hall _ Hfound). discriminate.
    + split; reflexivity.
  - intros other Hcase. unfold suggest_semconv. now rewrite Hcase.
Qed.

Lemma suggest_semconv_lookup_witness : suggest_semconv "DB" = suggest_semconv "db".
Proof.
  exact (proj2 (proj2 (proj2 (proj2 (suggest_semconv_lookup "db")))) "DB" eq_refl).
Defined.

(** ** Start-up *)

Lemma lower_ascii_twice (c : ascii) :
  Str.lower_ascii (Str.lower_ascii c) = Str.lower_ascii c.
Proof. destruct c as [[] [] [] [] [] [] [] []]; reflexivity. Qed.

Lemma lower_twice (s : string) : Str.lower (Str.lower s) = Str.lower s.
Proof.
  induction s as [|c s IH]; simpl; [reflexivity|].
  now rewrite lower_ascii_twice, IH.
Qed.

Lemma flag_is_set_iff (value : string) :
  flag_is_set value = true <-> In (Str.lower value) ["true"; "1"; "yes"].
Proof.
  unfold flag_is_set. simpl. rewrite !orb_true_iff, !String.eqb_eq.
  intuition congruence.
Qed.

Section Loading.

Variable int_of_str : string -> outcome Z.
Variable json_loads : string -> outcome (gmap string string).

(** What loading leaves in a configuration, read off the environment. *)
Lemma config_from_environ_fields (environ : gmap string string)
    (config : PrometheusConfig) :
  config_from_environ int_of_str json_loads environ = Return config ->
  url config = environ_get environ "PROMETHEUS_URL" ""
  /\ url_ssl_verify config
     = flag_is_set (environ_get environ "PROMETHEUS_URL_SSL_VERIFY" "True")
  /\ disable_prometheus_links config
     = flag_is_set (environ_get environ "PROMETHEUS_DISABLE_LINKS" "False")
  /\ exists port,
       int_of_str (environ_get environ "PROMETHEUS_MCP_BIND_PORT" "8080") = Return port
       /\ port <> 0
       /\ Str.truthy (environ_get environ "PROMETHEUS_MCP_SERVER_TRANSPORT" "stdio") = true
       /\ Str.truthy (environ_get environ "PROMETHEUS_MCP_BIND_HOST" "127.0.0.1") = true
       /\ mcp_server_config config
          = Some {| mcp_server_transport :=
                      Str.lower (environ_get environ "PROMETHEUS_MCP_SERVER_TRANSPORT" "stdio");
                    mcp_bind_host := environ_get environ "PROMETHEUS_MCP_BIND_HOST" "127.0.0.1";
                    mcp_bind_port := port |}.
Proof.
  unfold config_from_environ, new_MCPServerConfig. simpl.
  destruct (int_of_str (environ_get environ "PROMETHEUS_MCP_BIND_PORT" "8080"))
    as [port|e]; [|discriminate].
  rewrite lower_truthy.
  destruct (Str.truthy (environ_get environ "PROMETHEUS_MCP_SERVER_TRANSPORT" "stdio"));
    simpl; [|discriminate].
  destruct (Str.truthy (environ_get environ "PROMETHEUS_MCP_BIND_HOST" "127.0.0.1"));
    simpl; [|discriminate].
  destruct (Z.eqb_spec port 0) as [->|Hport]; [discriminate|].
  intros Hload.
  assert (Hfields : forall custom,
    Return
      {| url := environ_get environ "PROMETHEUS_URL" "";
         url_ssl_verify :=
           flag_is_set (environ_get environ "PROMETHEUS_URL_SSL_VERIFY" "True");
         disable_prometheus_links :=
           flag_is_set (environ_get environ "PROMETHEUS_DISABLE_LINKS" "False");
         username := Some (environ_get environ "PROMETHEUS_USERNAME" "");
         password := Some (environ_get environ "PROMETHEUS_PASSWORD" "");
         token := Some (environ_get environ "PROMETHEUS_TOKEN" "");
         org_id := Some (environ_get environ "ORG_ID" "");
         mcp_server_config :=
           Some {| mcp_server_transport :=
                     Str.lower (environ_get environ "PROMETHEUS_MCP_SERVER_TRANSPORT" "stdio");
                   mcp_bind_host := environ_get environ "PROMETHEUS_MCP_BIND_HOST" "127.0.0.1";
                   mcp_bind_port := port |};
         custom_headers := custom |} = Return config ->
    url config = environ_get environ "PROMETHEUS_URL" ""
    /\ url_ssl_verify config
       = flag_is_set (environ_get environ "PROMETHEUS_URL_SSL_VERIFY" "True")
    /\ disable_prometheus_links config
       = flag_is_set (environ_get environ "PROMETHEUS_DISABLE_LINKS" "False")
    /\ mcp_server_config config
       = Some {| mcp_server_transport :=
                   Str.lower (environ_get environ "PROMETHEUS_MCP_SERVER_TRANSPORT" "stdio");
                 mcp_bind_host := environ_get environ "PROMETHEUS_MCP_BIND_HOST" "127.0.0.1";
                 mcp_bind_port := port |}).
  { intros custom [= <-]. repeat split. }
  assert (H : url config = environ_get environ "PROMETHEUS_URL" ""
    /\ url_ssl_verify config
       = flag_is_set (environ_get environ "PROMETHEUS_URL_SSL_VERIFY" "True")
    /\ disable_prometheus_links config
       = flag_is_set (environ_get environ "PROMETHEUS_DISABLE_LINKS" "False")
    /\ mcp_server_config config
       = Some {| mcp_server_transport :=
                   Str.lower (environ_get environ "PROMETHEUS_MCP_SERVER_TRANSPORT" "stdio");
                 mcp_bind_host := environ_get environ "PROMETHEUS_MCP_BIND_HOST" "127.0.0.1";
                 mcp_bind_port := port |}).
  { destruct (environ !! "PROMETHEUS_CUSTOM_HEADERS") as [raw|];
      [|exact (Hfields _ Hload)].
    destruct (Str.truthy raw); [|exact (Hfields _ Hload)].
    destruct (json_loads raw) as [custom|e]; [exact (Hfields _ Hload)|discriminate]. }
  destruct H as [Hurl [Hverify [Hlinks Hmcp]]].
  split; [exact Hurl|]. split; [exact Hverify|]. split; [exact Hlinks|].
  exists port. repeat split; [exact Hport|exact Hmcp].
Qed.

End Loading.

(** X22.  In a configuration loaded from the environment, TLS verification
    is on when [PROMETHEUS_URL_SSL_VERIFY] is not set or is, in any case of
    its letters, one of [true], [1] and [yes], and off for every other
    text; links are disabled exactly when [PROMETHEUS_DISABLE_LINKS] is set
    to one of these three. *)
Theorem flags_of_the_environment (int_of_str : string -> outcome Z)
    (json_loads : string -> outcome (gmap string string))
    (environ : gmap string string) (config : PrometheusConfig) :
  config_from_environ int_of_str json_loads environ = Return config ->
  (url_ssl_verify config = true
   <-> match environ !! "PROMETHEUS_URL_SSL_VERIFY" with
       | Some value => In (Str.lower value) ["true"; "1"; "yes"]
       | None => True
       end)
  /\ (disable_prometheus_links config = true
      <-> match environ !! "PROMETHEUS_DISABLE_LINKS" with
          | Some value => In (Str.lower value) ["true"; "1"; "yes"]
          | None => False
          end).
Proof.
  intros Hload.
  destruct (config_from_environ_fields int_of_str json_loads environ config Hload)
    as [_ [Hverify [Hlinks _]]].
  rewrite Hverify, Hlinks. unfold environ_get. split.
  - destruct (environ !! "PROMETHEUS_URL_SSL_VERIFY") as [value|].
    + apply flag_is_set_iff.
    + split; [trivial|reflexivity].
  - destruct (environ !! "PROMETHEUS_DISABLE_LINKS") as [value|].
    + apply flag_is_set_iff.
    + split; [discriminate|intros []].
Qed.

(** [PROMETHEUS_URL_SSL_VERIFY=on] turns the verification off. *)
Lemma flags_of_the_environment_witness :
  exists config,
    config_from_environ decimal no_headers http_environ = Return config
    /\ url_ssl_verify config = false
    /\ disable_prometheus_links config = false.
Proof.
  eexists. split; [reflexivity|].
  destruct (flags_of_the_environment decimal no_headers http_environ _ eq_refl)
    as [Hverify Hlinks].
  split; apply not_true_is_false; intros Hset.
  - apply Hverify in Hset. vm_compute in Hset. intuition discriminate.
  - apply Hlinks in Hset. exact Hset.
Defined.

(** X23.  The configuration loads exactly when the text of the port is an
    integer other than zero, the transport and the host are not set to the
    empty text, and the custom headers, when set to a text that is not
    empty, decode.  A port [0] is refused like a missing one. *)
Theorem loading_needs_every_field (int_of_str : string -> outcome Z)
    (json_loads : string -> outcome (gmap string string))
    (environ : gmap string string) :
  (exists config, config_from_environ int_of_str json_loads environ = Return config)
  <-> ((exists port,
          int_of_str (environ_get environ "PROMETHEUS_MCP_BIND_PORT" "8080") = Return port
          /\ port <> 0)
       /\ Str.truthy (environ_get environ "PROMETHEUS_MCP_SERVER_TRANSPORT" "stdio") = true
       /\ Str.truthy (environ_get environ "PROMETHEUS_MCP_BIND_HOST" "127.0.0.1") = true
       /\ match environ !! "PROMETHEUS_CUSTOM_HEADERS" with
          | Some raw =>
              Str.truthy raw = true -> exists custom, json_loads raw = Return custom
          | None => True
          end).
Proof.
  unfold config_from_environ, new_MCPServerConfig. simpl. rewrite lower_truthy.
  destruct (int_of_str (environ_get environ "PROMETHEUS_MCP_BIND_PORT" "8080"))
    as [port|e].
  2:{ split; [intros [c Hc]; discriminate|].
      intros [[port [Hport _]] _]. discriminate. }
  destruct (Str.truthy (environ_get environ "PROMETHEUS_MCP_SERVER_TRANSPORT" "stdio")).
  2:{ simpl. split; [intros [c Hc]; discriminate|].
      intros [_ [Ht _]]. discriminate. }
  destruct (Str.truthy (environ_get environ "PROMETHEUS_MCP_BIND_HOST" "127.0.0.1")).
  2:{ simpl. split; [intros [c Hc]; discriminate|].
      intros [_ [_ [Hh _]]]. discriminate. }
  simpl. destruct (Z.eqb_spec port 0) as [->|Hport].
  { split; [intros [c Hc]; discriminate|].
    intros [[port [[= <-] Hne]] _]. contradiction. }
  destruct (environ !! "PROMETHEUS_CUSTOM_HEADERS") as [raw|].
  - destruct (Str.truthy raw).
    + destruct (json_loads raw) as [custom|e].
      * split; [|intros _; eexists; reflexivity].
        intros _. repeat split; eauto.
      * split; [intros [c Hc]; discriminate|].
        intros [_ [_ [_ Hdec]]]. destruct (Hdec eq_refl) as [custom Hc]. discriminate.
    + split; [|intros _; eexists; reflexivity].
      intros _. repeat split; eauto. discriminate.
  - split; [|intros _; eexists; reflexivity].
    intros _. repeat split; eauto.
Qed.

(** A port [0] is refused. *)
Lemma loading_needs_every_field_witness :
  ~ exists config,
      config_from_environ decimal no_headers {[ "PROMETHEUS_MCP_BIND_PORT" := "0" ]}
      = Return config.
Proof.
  intros Hloads.
  apply (loading_needs_every_field decimal no_headers
           {[ "PROMETHEUS_MCP_BIND_PORT" := "0" ]}) in Hloads.
  destruct Hloads as [[port [Hport Hne]] _].
  vm_compute in Hport. injection Hport as <-. now apply Hne.
Defined.

(** X24.  [run_server] on a configuration loaded from the environment never
    raises: it exits with code 1 when no URL is configured or the transport
    is none of [stdio], [http] and [sse]; it runs [http] and [sse] bound to
    the host and the port; and it runs [stdio] with the transport alone.
    The transport is the text of the environment in lower case. *)
Theorem run_server_decision (int_of_str : string -> outcome Z)
    (json_loads : string -> outcome (gmap string string))
    (environ : gmap string string) (config : PrometheusConfig) :
  config_from_environ int_of_str json_loads environ = Return config ->
  exists port,
    int_of_str (environ_get environ "PROMETHEUS_MCP_BIND_PORT" "8080") = Return port
    /\ let transport :=
         Str.lower (environ_get environ "PROMETHEUS_MCP_SERVER_TRANSPORT" "stdio") in
       let host := environ_get environ "PROMETHEUS_MCP_BIND_HOST" "127.0.0.1" in
       run_server config
       = Return
           (if negb (Str.truthy (environ_get environ "PROMETHEUS_URL" "")) then
              SystemExit 1
            else if String.eqb transport "http" || String.eqb transport "sse" then
              Run transport (Some (host, port))
            else if String.eqb transport "stdio" then Run transport None
            else SystemExit 1).
Proof.
  intros Hload.
  destruct (config_from_environ_fields int_of_str json_loads environ config Hload)
    as [Hurl [_ [_ [port [Hport [_ [_ [_ Hmcp]]]]]]]].
  exists port. split; [exact Hport|]. intros transport host.
  unfold run_server, setup_environment. rewrite Hurl, Hmcp. simpl.
  fold transport. fold host.
  destruct (Str.truthy (environ_get environ "PROMETHEUS_URL" "")); simpl;
    [|reflexivity].
  assert (Hlower : Str.lower transport = transport) by apply lower_twice.
  rewrite Hlower.
  destruct (String.eqb_spec transport "stdio") as [Hs|Hs].
  - rewrite Hs. reflexivity.
  - destruct (String.eqb transport "http"), (String.eqb transport "sse");
      reflexivity.
Qed.

(** The transport [HTTP] of the environment runs as [http], bound to the
    default host and port. *)
Lemma run_server_decision_witness :
  exists config,
    config_from_environ decimal no_headers http_environ = Return config
    /\ run_server config = Return (Run "http" (Some ("127.0.0.1", 8080))).
Proof.
  eexists. split; [reflexivity|].
  destruct (run_server_decision decimal no_headers http_environ _ eq_refl)
    as [port [Hport Hrun]].
  rewrite Hrun. injection Hport as <-. reflexivity.
Defined.

(** ** The health report *)

(** X25.  The report of [health_check] names what it found.  Its flags say
    whether a URL, a user or a token, and a tenant are configured.  With a
    URL, a probe that returns gives the connectivity [healthy] and the URL,
    and no error; a probe that raises gives the connectivity [unhealthy]
    and that exception as the error of the backend, and no URL.  Without a
    URL the report carries the error [PROMETHEUS_URL not configured] and no
    connectivity.  The check leaves the cache as it is and sends what its
    probe sends. *)
Theorem health_report (config : PrometheusConfig) (w : world) :
  exists h,
    fst (health_check config w) = Return h
    /\ service h = "prometheus-mcp-server"
    /\ configuration h
       = Some {| prometheus_url_configured := Str.truthy (url config);
                 authentication_configured :=
                   truthy (username config) || truthy (token config);
                 org_id_configured := truthy (org_id config) |}
    /\ cache (snd (health_check config w)) = cache w
    /\ (Str.truthy (url config) = true ->
        sent (snd (health_check config w)) = sent (snd (probe config w))
        /\ (forall payload,
              fst (probe config w) = Return payload ->
              prometheus_connectivity h = Some "healthy"
              /\ prometheus_url h = Some (url config)
              /\ prometheus_error h = None /\ error h = None)
        /\ (forall e,
              fst (probe config w) = Raise e ->
              prometheus_connectivity h = Some "unhealthy"
              /\ prometheus_error h = Some (StrOf e)
              /\ prometheus_url h = None /\ error h = None))
    /\ (Str.truthy (url config) = false ->
        error h = Some (Literal "PROMETHEUS_URL not configured")
        /\ prometheus_connectivity h = None
        /\ sent (snd (health_check config w)) = sent w).
Proof.
  pose proof (gateway_preserves config "query" (probe_params w) w) as Hkeep.
  unfold health_check, try_except, bind, utcnow_isoformat, time_time, ret, probe,
    probe_params in *.
  simpl in *. destruct (Str.truthy (url config)) eqn:Hurl; simpl.
  - destruct (make_prometheus_request config "query"
                (Some [("query", "up"); ("time", pretty (int_of (now w)))]) w)
      as [[payload|e] w1]; simpl in *; eexists;
      (split; [reflexivity|]); (split; [reflexivity|]); (split; [reflexivity|]);
      (split; [tauto|]); (split; [|discriminate]); intros _;
      (split; [reflexivity|]); split; intros ? Heq; try discriminate;
      try injection Heq as <-; repeat split.
  - eexists. split; [reflexivity|]. split; [reflexivity|]. split; [reflexivity|].
    split; [reflexivity|]. split; [discriminate|]. intros _. repeat split.
Qed.

(** A backend that answers [401] to the probe. *)
Lemma health_report_witness :
  exists h,
    fst (health_check token_config
           (world_at 12000%Q empty_cache (always (Response 401 None)))) = Return h
    /\ prometheus_connectivity h = Some "unhealthy"
    /\ prometheus_error h = Some (StrOf (HTTPError 401)).
Proof.
  destruct (health_report token_config
              (world_at 12000%Q empty_cache (always (Response 401 None))))
    as [h [Hh [_ [_ [_ [Hurl _]]]]]].
  exists h. split; [exact Hh|].
  destruct (Hurl eq_refl) as [_ [_ Hfail]].
  destruct (Hfail (HTTPError 401) eq_refl) as [Hconn [Herr _]].
  split; [exact Hconn|exact Herr].
Defined.

(** X26.  The report calls authentication configured as soon as a user is,
    but the gateway needs the password as well: with a user, no password
    and no token, [health_check] reports authentication as configured while
    every request goes out without credentials and, unless the custom
    headers have one, without [Authorization] header. *)
Theorem authentication_flag_ignores_password (config : PrometheusConfig) (w : world) :
  truthy (username config) = true ->
  truthy (password config) = false ->
  truthy (token config) = false ->
  (exists h flags,
     fst (health_check config w) = Return h
     /\ configuration h = Some flags
     /\ authentication_configured flags = true)
  /\ forall endpoint params w' r,
       In r (sent (snd (make_prometheus_request config endpoint params w'))) ->
       In r (sent w')
       \/ (req_auth r = None
           /\ req_headers r !! "Authorization" = custom_header config "Authorization").
Proof.
  intros Huser Hpass Htoken. split.
  - unfold health_check, try_except, bind, utcnow_isoformat, time_time, ret. simpl.
    destruct (Str.truthy (url config)); simpl.
    + destruct (make_prometheus_request config "query"
                  (Some [("query", "up"); ("time", pretty (int_of (now w)))]) w)
        as [[payload|e] w1]; simpl; eexists _, _;
        (split; [reflexivity|]); (split; [reflexivity|]); simpl;
        now rewrite Huser.
    + eexists _, _. split; [reflexivity|]. split; [reflexivity|]. simpl.
      now rewrite Huser.
  - intros endpoint params w' r. rewrite make_prometheus_request_eq.
    destruct (Str.truthy (url config)); simpl; [|now left].
    intros Hin. apply in_app_or in Hin as [Hold|[<-|[]]]; [now left|].
    right. split.
    + unfold outbound, get_prometheus_auth. simpl.
      now rewrite Htoken, Huser, Hpass.
    + rewrite outbound_header. unfold own_header.
      rewrite Htoken, andb_false_r. simpl.
      destruct (custom_header config "Authorization"); reflexivity.
Qed.

Lemma authentication_flag_ignores_password_witness :
  map (fun r => (req_auth r, req_headers r !! "Authorization"))
    (sent (snd (make_prometheus_request user_only_config "targets" None
                  (world_at 12000%Q empty_cache (always NoReply)))))
  = [(None, None)].
Proof.
  assert (Hsent : sent (snd (make_prometheus_request user_only_config "targets" None
                               (world_at 12000%Q empty_cache (always NoReply))))
                  = [outbound user_only_config "targets" None]) by reflexivity.
  assert (Hin : In (outbound user_only_config "targets" None)
                  (sent (snd (make_prometheus_request user_only_config "targets" None
                                (world_at 12000%Q empty_cache (always NoReply))))))
    by (rewrite Hsent; simpl; auto).
  destruct (proj2 (authentication_flag_ignores_password user_only_config
                     (world_at 12000%Q empty_cache (always NoReply))
                     eq_refl eq_refl eq_refl) "targets" None _ _ Hin)
    as [[]|[Hauth Hheader]].
  rewrite Hsent. cbn [map]. rewrite Hauth, Hheader. reflexivity.
Defined.
